(** * cldfbench.cldf: [CLDFSpec] and [CLDFWriter]

    A shallow embedding of [src/cldfbench/cldf.py].  The module is glue
    code around collaborators (pathlib, shutil, subprocess, attrs, pycldf,
    cldfbench.catalogs); each collaborator is modelled through the part of
    its contract the module relies on:

    - the file system is a finite map from lexical paths to nodes;
    - Python exceptions are values of [exn], and a computation is a
      function from a state to an outcome ([Return] or [Raise]) and the
      state it leaves behind: a raised exception does not roll the state
      back;
    - the pycldf dataset handle records the calls the writer makes on it;
    - what the environment decides (the module registry, the outcome of
      loading a metadata file, of running [pip freeze], of pycldf's own
      [write]) is a field of an environment record [Env]. *)

From Stdlib Require Import Ascii ZArith Lia.
From stdpp Require Import base option list strings countable gmap fin_maps.

Set Default Proof Using "Type".

(** ** Strings *)

Definition str_nonempty (s : string) : bool :=
  match s with EmptyString => false | String _ _ => true end.

(** [sep.join(l)] *)
Fixpoint str_join (sep : string) (l : list string) : string :=
  match l with
  | [] => ""
  | [x] => x
  | x :: xs => x +:+ sep +:+ str_join sep xs
  end.

(** [s.split(c)] for a one-character separator: the fields between the
    occurrences of [c], empty ones included. *)
Fixpoint str_split_on (c : ascii) (s : string) : list string :=
  match s with
  | EmptyString => [""]
  | String a s' =>
      if Ascii.eqb a c then "" :: str_split_on c s'
      else match str_split_on c s' with
           | [] => [String a ""]
           | f :: fs => String a f :: fs
           end
  end.

(** [c.isspace()] on the ASCII range: TAB, LF, VT, FF, CR, FS, GS, RS, US
    and the space. *)
Definition is_space (c : ascii) : bool :=
  let n := nat_of_ascii c in
  ((9 <=? n) && (n <=? 13)) || ((28 <=? n) && (n <=? 31)) || (n =? 32).

(** [s.split()]: the maximal runs of non-whitespace characters. *)
Fixpoint str_split_ws (s : string) : list string :=
  match s with
  | EmptyString => []
  | String a s' =>
      if is_space a then str_split_ws s'
      else match s' with
           | EmptyString => [String a ""]
           | String b _ =>
               if is_space b then String a "" :: str_split_ws s'
               else match str_split_ws s' with
                    | [] => [String a ""]
                    | w :: ws => String a w :: ws
                    end
           end
  end.

(** [s.lstrip('/')] together with the number of slashes removed. *)
Fixpoint lstrip_slashes (s : string) : nat * string :=
  match s with
  | String "/" s' => let '(n, r) := lstrip_slashes s' in (S n, r)
  | _ => (0, s)
  end.

(** [repr] of a string and of a list of strings (no escaping). *)
Definition str_repr (s : string) : string := "'" +:+ s +:+ "'".

Definition list_repr (l : list string) : string :=
  "[" +:+ str_join ", " (map str_repr l) +:+ "]".

(** ** pathlib.PurePosixPath

    A path is its root (empty, one slash, or two slashes) and its
    components. *)

Record Path := { root : string; parts : list string }.

#[global] Instance Path_eq_dec : EqDecision Path.
Proof. solve_decision. Defined.

#[global] Instance Path_countable : Countable Path :=
  inj_countable' (λ p, (root p, parts p)) (λ rp, {| root := rp.1; parts := rp.2 |})
    (λ p, match p with Build_Path _ _ => eq_refl end).

Definition keep_component (x : string) : bool :=
  str_nonempty x && negb (String.eqb x ".").

(** [pathlib.Path(s)]: [splitroot] then the components between slashes,
    empty ones and [.] dropped. *)
Definition Path_of_str (s : string) : Path :=
  let '(n, rel) := lstrip_slashes s in
  {| root := match n with 0 => "" | 2 => "//" | _ => "/" end;
     parts := filter (λ x, Is_true (keep_component x)) (str_split_on "/" rel) |}.

(** [str(p)] *)
Definition Path_str (p : Path) : string :=
  match root p, parts p with
  | EmptyString, [] => "."
  | r, ps => r +:+ str_join "/" ps
  end.

(** [p.name]: the last component, or the empty string. *)
Definition Path_name (p : Path) : string := List.last (parts p) "".

(** [p.parent] *)
Definition Path_parent (p : Path) : Path :=
  {| root := root p; parts := removelast (parts p) |}.

(** [p / q] for a path [q]: an absolute [q] replaces [p]. *)
Definition Path_join (p q : Path) : Path :=
  if str_nonempty (root q) then q
  else {| root := root p; parts := parts p ++ parts q |}.

(** [p / s] and [p.joinpath(s)] for a string [s]. *)
Definition Path_joinpath (p : Path) (s : string) : Path :=
  Path_join p (Path_of_str s).

(** [os.path.basename] and [os.path.join], which [shutil.copy] uses. *)
Definition os_path_basename (s : string) : string :=
  List.last (str_split_on "/" s) "".

Definition str_ends_with_slash (s : string) : bool :=
  negb (str_nonempty (os_path_basename s)) && str_nonempty s.

Definition os_path_join (a b : string) : string :=
  match b with
  | String "/" _ => b
  | _ => if negb (str_nonempty a) || str_ends_with_slash a then a +:+ b
         else a +:+ "/" +:+ b
  end.

(** ** Exceptions and computations

    The classes of the exceptions the module and its collaborators raise.
    All of them derive from Python's [Exception]; [OtherError] stands for
    any further [Exception] subclass a collaborator library may raise, by
    name. *)

Inductive exc_class :=
| ValueError | TypeError | KeyError | IndexError | AttributeError
| OSError | FileNotFoundError | FileExistsError | NotADirectoryError
| IsADirectoryError | PermissionError | SameFileError
| CalledProcessError
| OtherError (name : string).

Record exn := { exc : exc_class; exc_msg : string }.

(** [isinstance(e, OSError)]: the I/O errors. *)
Definition is_OSError (e : exn) : bool :=
  match exc e with
  | OSError | FileNotFoundError | FileExistsError | NotADirectoryError
  | IsADirectoryError | PermissionError | SameFileError => true
  | _ => false
  end.

(** [isinstance(e, subprocess.CalledProcessError)] *)
Definition is_CalledProcessError (e : exn) : bool :=
  match exc e with CalledProcessError => true | _ => false end.

(** [isinstance(e, Exception)] *)
Definition is_Exception (e : exn) : bool := true.

Inductive result (A : Type) :=
| Return (a : A)
| Raise (e : exn).
Arguments Return {A} a.
Arguments Raise {A} e.

(** A computation over a state [S]: its outcome and the state it leaves. *)
Definition M (S A : Type) : Type := S → result A * S.

#[global] Instance M_ret {S} : MRet (M S) := λ A a s, (Return a, s).

#[global] Instance M_bind {S} : MBind (M S) := λ A B k m s,
  match m s with
  | (Return a, s') => k a s'
  | (Raise e, s') => (Raise e, s')
  end.

Definition raise {S A} (e : exn) : M S A := λ s, (Raise e, s).

(** [try: m  except <class>: h]: the handler runs in the state the body
    left when it raised an exception of the class. *)
Definition try_except {S A} (m : M S A) (catches : exn → bool) (h : exn → M S A)
  : M S A := λ s,
  match m s with
  | (Return a, s') => (Return a, s')
  | (Raise e, s') => if catches e then h e s' else (Raise e, s')
  end.

(** ** The file system *)

Inductive node :=
| Dir
| File (content : string).

Abbreviation FS := (gmap Path node).

(** What [os.stat] finds at a path.  The current directory and the root
    (paths without components) are always there. *)
Definition fs_stat (fs : FS) (p : Path) : option node :=
  match parts p with
  | [] => Some Dir
  | _ => fs !! p
  end.

(** [p.exists()] *)
Definition Path_exists (fs : FS) (p : Path) : bool :=
  match fs_stat fs p with Some _ => true | None => false end.

Definition is_dir (fs : FS) (p : Path) : bool :=
  match fs_stat fs p with Some Dir => true | _ => false end.

Definition is_file (fs : FS) (p : Path) : bool :=
  match fs_stat fs p with Some (File _) => true | _ => false end.

(** [p.mkdir()], with [parents=False] and [exist_ok=False]. *)
Definition Path_mkdir (p : Path) : M FS unit := λ fs,
  match fs_stat fs p with
  | Some _ => (Raise {| exc := FileExistsError; exc_msg := Path_str p |}, fs)
  | None =>
      match fs_stat fs (Path_parent p) with
      | None => (Raise {| exc := FileNotFoundError; exc_msg := Path_str p |}, fs)
      | Some (File _) =>
          (Raise {| exc := NotADirectoryError; exc_msg := Path_str p |}, fs)
      | Some Dir => (Return (), <[p := Dir]> fs)
      end
  end.

(** [p.open('wb')]: creates the file or truncates it; the result is the
    path the open file writes to. *)
Definition Path_open_wb (p : Path) : M FS Path := λ fs,
  match fs_stat fs p with
  | Some Dir => (Raise {| exc := IsADirectoryError; exc_msg := Path_str p |}, fs)
  | Some (File _) => (Return p, <[p := File ""]> fs)
  | None =>
      match fs_stat fs (Path_parent p) with
      | None => (Raise {| exc := FileNotFoundError; exc_msg := Path_str p |}, fs)
      | Some (File _) =>
          (Raise {| exc := NotADirectoryError; exc_msg := Path_str p |}, fs)
      | Some Dir => (Return p, <[p := File ""]> fs)
      end
  end.

(** [open(p, 'rb').read()] *)
Definition read_file (p : Path) : M FS string := λ fs,
  match fs_stat fs p with
  | None => (Raise {| exc := FileNotFoundError; exc_msg := Path_str p |}, fs)
  | Some Dir => (Raise {| exc := IsADirectoryError; exc_msg := Path_str p |}, fs)
  | Some (File c) => (Return c, fs)
  end.

(** Writing [c] through the open file [f]. *)
Definition file_write (f : Path) (c : string) : M FS unit := λ fs,
  (Return (), <[f := File c]> fs).

(** [shutil.copy(src, dst)]: into [dst] when it is a directory, under the
    base name of [src]; the same file on both sides is an error. *)
Definition shutil_copy (src dst : string) : M FS string := λ fs,
  let dst := if is_dir fs (Path_of_str dst)
             then os_path_join dst (os_path_basename src) else dst in
  if bool_decide (Path_of_str src = Path_of_str dst) && Path_exists fs (Path_of_str src)
  then (Raise {| exc := SameFileError; exc_msg := src |}, fs)
  else (c ← read_file (Path_of_str src);
        f ← Path_open_wb (Path_of_str dst);
        file_write f c;;
        mret dst) fs.

(** ** subprocess.run

    What happens when a command is run with its standard output
    redirected to a file: it cannot be started ([Popen] raises, for a
    missing executable [FileNotFoundError]), or it runs, prints and exits
    with a return code. *)

Inductive run_outcome :=
| NotLaunched (e : exn)
| Exited (returncode : Z) (stdout : string).

(** [subprocess.run(cmd, stdout=f, check=True)] *)
Definition subprocess_run (cmd : string) (outcome : run_outcome) (f : Path)
  : M FS unit := λ fs,
  match outcome with
  | NotLaunched e => (Raise e, fs)
  | Exited rc out =>
      (file_write f out;;
       if (rc =? 0)%Z then mret ()
       else raise {| exc := CalledProcessError; exc_msg := cmd |}) fs
  end.

(** ** Collaborator values *)

(** JSON-LD shaped values: strings and (ordered) mappings. *)
#[warnings="-register-all"] Inductive json :=
| JStr (s : string)
| JObj (items : list (string * json)).

(** A table row and the keyword arguments [**objects]: table name to rows,
    in insertion order. *)
Definition row : Type := list (string * string).
Definition kwargs : Type := list (string * list row).

(** Modelled from the spec: [cldfbench.catalogs.Catalog], whose source is
    not at hand; a catalog exposes a structured provenance record,
    [json_ld()], and that is all the writer asks of it. *)
Record Catalog := { catalog_json_ld : json }.

(** The values of a command-line namespace: instances of [Catalog], and
    anything else. *)
Inductive pyvalue :=
| PyCatalog (c : Catalog)
| PyOther (repr : string).

(** [argparse.Namespace]: [vars(args)] in insertion order. *)
Definition Namespace : Type := list (string * pyvalue).

(** Modelled from the spec: the [cldfbench.Dataset] passed as [dataset],
    whose source is not at hand; it may expose a source repository
    ([repo], possibly [None]), which has a structured provenance record,
    [json_ld()]. *)
Record Repository := { repo_json_ld : json }.
Record BenchDataset := { repo : option Repository }.

(** The calls the writer makes on the pycldf dataset handle. *)
Inductive cldf_call :=
| SetProperty (key value : string)
| AddProvenance (key : string) (value : list json)
| SetUrl (comp fname : string)
| CallWrite (kw : kwargs).

(** The pycldf dataset handle: the tables its metadata declares, and the
    calls received so far. *)
Record Dataset := { tables : list string; calls : list cldf_call }.

(** A pycldf dataset class: its [__name__] and the identity of the class
    object, which tells apart two classes that bear the same name (a
    subclass named like its base, say).  A registry entry of
    [get_modules()] has an id and a class. *)
Record DatasetClass := { cls_name : string; cls_ident : nat }.
Record Module := { id : string; cls : DatasetClass }.

(** [pycldf.dataset.Dataset], the base class. *)
Definition Dataset_cls : DatasetClass := {| cls_name := "Dataset"; cls_ident := 0 |}.

(** [pycldf.dataset.MD_SUFFIX] *)
Definition MD_SUFFIX : string := "-metadata.json".

(** What the environment decides. *)
Record Env := {
  (** [pycldf.dataset.get_modules()] *)
  get_modules : list Module;
  (** the directory of the installed pycldf package *)
  pkg_dir : Path;
  (** [cls.from_metadata(path)] on a file system *)
  from_metadata : DatasetClass → Path → FS → result Dataset;
  (** [sys.version] *)
  sys_version : string;
  (** what running [pip freeze] does *)
  pip_freeze : run_outcome;
  (** pycldf's own [write]: the files it writes and whether it raises *)
  cldf_write : Dataset → kwargs → FS → list (Path * string) * option exn
}.

Section Model.
Variable E : Env.

(** [pycldf.util.pkg_path]: the components joined to the package directory. *)
Definition pkg_path (comps : list string) : Path :=
  foldl Path_joinpath (pkg_dir E) comps.

(** ** CLDFSpec *)

Record CLDFSpec := {
  module : string;
  default_metadata_path : Path;
  metadata_fname : string;
  data_fnames : list (string * string)
}.

(** The [module] argument: a module name or a [Dataset] subclass. *)
Inductive module_arg :=
| ModuleName (s : string)
| ModuleClass (c : DatasetClass).

(** [converter=lambda cls: getattr(cls, '__name__', cls)] *)
Definition module_converter (a : module_arg) : string :=
  match a with
  | ModuleName s => s
  | ModuleClass c => cls_name c
  end.

(** [validator=attr.validators.in_([m.id for m in get_modules()])] *)
Definition module_validator (value : string) : M FS unit :=
  let options := map id (get_modules E) in
  if bool_decide (value ∈ options) then mret ()
  else raise {| exc := ValueError;
                exc_msg := "'module' must be in " +:+ list_repr options +:+
                           " (got " +:+ str_repr value +:+ ")" |}.

(** A path argument: a string or a path object. *)
Inductive path_arg :=
| PathStr (s : string)
| PathObj (p : Path).

(** [pathlib.Path(a)] and the truth value of [a]: the empty string is
    false, a path object is true. *)
Definition pathlib_Path (a : path_arg) : Path :=
  match a with PathStr s => Path_of_str s | PathObj p => p end.

Definition path_arg_truthy (a : path_arg) : bool :=
  match a with PathStr s => str_nonempty s | PathObj _ => true end.

(** [Dataset.from_metadata(path)] as a computation. *)
Definition load_metadata (c : DatasetClass) (p : Path) : M FS Dataset :=
  λ fs, (from_metadata E c p fs, fs).

(** The packaged template of a module. *)
Definition packaged_metadata (module : string) : Path :=
  pkg_path ["modules"; module +:+ MD_SUFFIX].

(** The [if self.default_metadata_path: ... else: ...] of
    [__attrs_post_init__]. *)
Definition resolve_default_metadata_path (module : string)
    (default_metadata_path : option path_arg) : M FS Path :=
  match default_metadata_path with
  | Some a =>
      if path_arg_truthy a then
        let p := pathlib_Path a in
        try_except (load_metadata Dataset_cls p;; mret p) is_Exception
          (λ _, raise {| exc := ValueError;
                         exc_msg := "invalid default metadata: " +:+ Path_str p |})
      else mret (packaged_metadata module)
  | None => mret (packaged_metadata module)
  end.

(** [CLDFSpec.__attrs_post_init__], on the attribute values as [__init__]
    has set them. *)
Definition CLDFSpec_attrs_post_init (module : string)
    (default_metadata_path : option path_arg) (metadata_fname : option string)
    (data_fnames : list (string * string)) : M FS CLDFSpec :=
  default_metadata_path ← resolve_default_metadata_path module default_metadata_path;
  let metadata_fname :=
    match metadata_fname with
    | Some s => if str_nonempty s then s else Path_name default_metadata_path
    | None => Path_name default_metadata_path
    end in
  mret {| module := module; default_metadata_path := default_metadata_path;
          metadata_fname := metadata_fname; data_fnames := data_fnames |}.

(** [CLDFSpec(module, default_metadata_path, metadata_fname, data_fnames)]:
    an omitted argument is [None] here and takes its default; the
    converter, then the validator, then [__attrs_post_init__]. *)
Definition CLDFSpec_init (module : option module_arg)
    (default_metadata_path : option path_arg) (metadata_fname : option string)
    (data_fnames : option (list (string * string))) : M FS CLDFSpec :=
  let module := module_converter (default (ModuleName "Generic") module) in
  module_validator module;;
  CLDFSpec_attrs_post_init module default_metadata_path metadata_fname
    (default [] data_fnames).

(** The property [CLDFSpec.cls]: the class of the first registry entry
    with the spec's module id, [None] when there is none. *)
Definition CLDFSpec_cls (spec : CLDFSpec) : option DatasetClass :=
  cls <$> List.find (λ m, String.eqb (id m) (module spec)) (get_modules E).

(** ** CLDFWriter *)

Record CLDFWriter := {
  cldf_spec : CLDFSpec;
  objects : kwargs;
  args : option Namespace;
  dataset : option BenchDataset;
  dir : Path;
  cldf : Dataset
}.

(** The state a writer's methods run in: the writer object and the file
    system. *)
Record State := { self : CLDFWriter; fs : FS }.

Definition on_fs {A} (m : M FS A) : M State A := λ s,
  let '(r, fs') := m (fs s) in (r, {| self := self s; fs := fs' |}).

Definition get_self : M State CLDFWriter := λ s, (Return (self s), s).

Definition set_cldf (d : Dataset) (w : CLDFWriter) : CLDFWriter :=
  {| cldf_spec := cldf_spec w; objects := objects w; args := args w;
     dataset := dataset w; dir := dir w; cldf := d |}.

Definition set_objects (o : kwargs) (w : CLDFWriter) : CLDFWriter :=
  {| cldf_spec := cldf_spec w; objects := o; args := args w;
     dataset := dataset w; dir := dir w; cldf := cldf w |}.

(** A call on the handle is recorded on it. *)
Definition record_call (c : cldf_call) (d : Dataset) : Dataset :=
  {| tables := tables d; calls := calls d ++ [c] |}.

Definition cldf_call_ (c : cldf_call) : M State unit := λ s,
  (Return (), {| self := set_cldf (record_call c (cldf (self s))) (self s);
                 fs := fs s |}).

(** [writer.objects[table].append(r)] on the [defaultdict(list)]. *)
Fixpoint objects_append (table : string) (r : row) (o : kwargs) : kwargs :=
  match o with
  | [] => [(table, [r])]
  | (t, rs) :: o' =>
      if String.eqb t table then (t, rs ++ [r]) :: o'
      else (t, rs) :: objects_append table r o'
  end.

(** [if not outdir.exists(): outdir.mkdir()] *)
Definition ensure_outdir (outdir : Path) : M FS unit :=
  outdir_exists ← (λ fs, (Return (Path_exists fs outdir), fs));
  if negb outdir_exists then Path_mkdir outdir else mret ().

(** [CLDFWriter.__init__(outdir, cldf_spec=None, args=None, dataset=None)] *)
Definition CLDFWriter_init (outdir : path_arg) (cldf_spec : option CLDFSpec)
    (args : option Namespace) (dataset : option BenchDataset) : M FS CLDFWriter :=
  cldf_spec ← match cldf_spec with
              | Some spec => mret spec
              | None => CLDFSpec_init None None None None
              end;
  let outdir := pathlib_Path outdir in
  ensure_outdir outdir;;
  shutil_copy (Path_str (default_metadata_path cldf_spec))
    (Path_str (Path_joinpath outdir (metadata_fname cldf_spec)));;
  match CLDFSpec_cls cldf_spec with
  | None => raise {| exc := AttributeError;
                     exc_msg := "'NoneType' object has no attribute 'from_metadata'" |}
  | Some c =>
      cldf ← load_metadata c (Path_joinpath outdir (metadata_fname cldf_spec));
      mret {| cldf_spec := cldf_spec; objects := []; args := args;
              dataset := dataset; dir := outdir; cldf := cldf |}
  end.

(** The constructor from [self.dir = outdir] on, for the spec it has
    settled on: the copy of the template and the loading of the handle. *)
Definition CLDFWriter_init_after_outdir (outdir : Path) (cldf_spec : CLDFSpec)
    (args : option Namespace) (dataset : option BenchDataset) : M FS CLDFWriter :=
  shutil_copy (Path_str (default_metadata_path cldf_spec))
    (Path_str (Path_joinpath outdir (metadata_fname cldf_spec)));;
  match CLDFSpec_cls cldf_spec with
  | None => raise {| exc := AttributeError;
                     exc_msg := "'NoneType' object has no attribute 'from_metadata'" |}
  | Some c =>
      cldf ← load_metadata c (Path_joinpath outdir (metadata_fname cldf_spec));
      mret {| cldf_spec := cldf_spec; objects := []; args := args;
              dataset := dataset; dir := outdir; cldf := cldf |}
  end.

(** [CLDFWriter.__getitem__]: [self.cldf[type_]], a [KeyError] for a table
    the handle does not have. *)
Definition CLDFWriter_getitem (type_ : string) : M State string := λ s,
  if bool_decide (type_ ∈ tables (cldf (self s))) then (Return type_, s)
  else (Raise {| exc := KeyError; exc_msg := type_ |}, s).

(** The provenance entries of [write]. *)
Definition python_entry (version : string) : json :=
  JObj [("dc:title", JStr "python"); ("dc:description", JStr version)].

Definition packages_entry : json :=
  JObj [("dc:title", JStr "python-packages"); ("dc:relation", JStr "requirements.txt")].

(** [if self.dataset and self.dataset.repo: srcs.append(...)] *)
Definition repo_sources (dataset : option BenchDataset) (srcs : list json)
  : list json :=
  match dataset with
  | Some ds => match repo ds with
               | Some r => srcs ++ [repo_json_ld r]
               | None => srcs
               end
  | None => srcs
  end.

(** [for cat in vars(self.args).values(): if isinstance(cat, Catalog): ...] *)
Definition catalog_sources (args : option Namespace) (srcs : list json)
  : list json :=
  match args with
  | Some ns =>
      foldl (λ srcs cat, match cat with
                         | PyCatalog c => srcs ++ [catalog_json_ld c]
                         | PyOther _ => srcs
                         end) srcs (map snd ns)
  | None => srcs
  end.

(** [sys.version.split()[0]] *)
Definition python_version : M State string :=
  match str_split_ws (sys_version E) with
  | v :: _ => mret v
  | [] => raise {| exc := IndexError; exc_msg := "list index out of range" |}
  end.

(** The [try: ... except subprocess.CalledProcessError: pass] of [write]:
    the file is opened while the arguments of [subprocess.run] are
    evaluated, before the command runs. *)
Definition freeze_requirements (reqs : list json) : M State (list json) :=
  try_except
    (w ← get_self;
     stdout ← on_fs (Path_open_wb (Path_joinpath (dir w) "requirements.txt"));
     on_fs (subprocess_run "pip freeze" (pip_freeze E) stdout);;
     mret (reqs ++ [packages_entry]))
    is_CalledProcessError
    (λ _, mret reqs).

(** [for comp, fname in self.cldf_spec.data_fnames.items(): ...] *)
Fixpoint link_data_fnames (items : list (string * string)) : M State unit :=
  match items with
  | [] => mret ()
  | (comp, fname) :: items' =>
      CLDFWriter_getitem comp;;
      cldf_call_ (SetUrl comp fname);;
      link_data_fnames items'
  end.

Definition write_files (files : list (Path * string)) (fs : FS) : FS :=
  foldl (λ fs pc, <[pc.1 := File pc.2]> fs) fs files.

(** [self.cldf.write] with the keyword arguments [kw]. *)
Definition cldf_write_ (kw : kwargs) : M State unit := λ s,
  let '(files, err) := cldf_write E (cldf (self s)) kw (fs s) in
  let s' := {| self := set_cldf (record_call (CallWrite kw) (cldf (self s))) (self s);
               fs := write_files files (fs s) |} in
  match err with
  | None => (Return (), s')
  | Some e => (Raise e, s')
  end.

(** [CLDFWriter.write] with the keyword arguments [kw]. *)
Definition CLDFWriter_write (kw : kwargs) : M State unit :=
  cldf_call_ (SetProperty "rdf:type" "http://www.w3.org/ns/dcat#Distribution");;
  w ← get_self;
  let srcs := catalog_sources (args w) (repo_sources (dataset w) []) in
  (match srcs with
   | [] => mret ()
   | _ :: _ => cldf_call_ (AddProvenance "wasDerivedFrom" srcs)
   end);;
  version ← python_version;
  reqs ← freeze_requirements [python_entry version];
  cldf_call_ (AddProvenance "wasGeneratedBy" reqs);;
  w ← get_self;
  link_data_fnames (data_fnames (cldf_spec w));;
  cldf_write_ kw.

(** [CLDFWriter.__enter__] returns the writer; [CLDFWriter.__exit__] writes
    the objects and returns [None], which is false. *)
Definition CLDFWriter_enter : M State unit := mret ().

(** [self.write] called with the mapping [d] unpacked: the keys of [d]
    are bound as keyword arguments.
    [write] has one named parameter, [self], and takes the rest as [kw]:
    a key ["self"] in [d] is a [TypeError] of the call, raised before the
    body of [write] runs. *)
Definition CLDFWriter_write_kwargs (d : kwargs) : M State unit :=
  if bool_decide ("self" ∈ d.*1)
  then raise {| exc := TypeError;
                exc_msg := "write() got multiple values for argument 'self'" |}
  else CLDFWriter_write d.

Definition CLDFWriter_exit (exc_val : option exn) : M State bool :=
  w ← get_self;
  CLDFWriter_write_kwargs (objects w);;
  mret false.

(** [with mgr: body]: [__exit__] runs on every exit path; on an exception
    in the body it receives the exception, and the exception is raised
    again unless [__exit__] returns a true value; an exception raised by
    [__exit__] itself takes the place of the one in flight. *)
Definition with_ {S} (enter : M S unit) (exit : option exn → M S bool)
    (body : M S unit) : M S unit := λ s,
  match enter s with
  | (Raise e, s0) => (Raise e, s0)
  | (Return _, s0) =>
      match body s0 with
      | (Return _, s1) =>
          match exit None s1 with
          | (Return _, s2) => (Return (), s2)
          | (Raise e', s2) => (Raise e', s2)
          end
      | (Raise e, s1) =>
          match exit (Some e) s1 with
          | (Return true, s2) => (Return (), s2)
          | (Return false, s2) => (Raise e, s2)
          | (Raise e', s2) => (Raise e', s2)
          end
      end
  end.

(** [with writer: body] for a constructed writer. *)
Definition with_CLDFWriter (body : M State unit) : M State unit :=
  with_ CLDFWriter_enter CLDFWriter_exit body.

End Model.

(** ** Notions the statements use

    The provenance sources as the specification describes them: the
    repository record of the dataset, if any, then the records of exactly
    the catalog values of the arguments, in their order. *)

Definition repo_records (dataset : option BenchDataset) : list json :=
  match dataset with
  | Some {| repo := Some r |} => [repo_json_ld r]
  | _ => []
  end.

Definition catalog_records (args : option Namespace) : list json :=
  match args with
  | Some ns => omap (λ kv, match kv.2 with
                           | PyCatalog c => Some (catalog_json_ld c)
                           | PyOther _ => None
                           end) ns
  | None => []
  end.

(** The spec a writer is constructed with: the one given, or the default
    one. *)
Definition resolves_to (E : Env) (cldf_spec : option CLDFSpec) (fs : FS) (spec : CLDFSpec)
  : Prop :=
  match cldf_spec with
  | Some sp => spec = sp
  | None => CLDFSpec_init E None None None None fs = (Return spec, fs)
  end.

(** [outdir/requirements.txt] *)
Definition requirements_txt (w : CLDFWriter) : Path :=
  Path_joinpath (dir w) "requirements.txt".

(** What [write] does once the requirements are settled: lines 131 to 135. *)
Definition write_after_freeze (E : Env) (reqs : list json) (kw : kwargs)
  : M State unit :=
  cldf_call_ (AddProvenance "wasGeneratedBy" reqs);;
  w ← get_self;
  link_data_fnames (data_fnames (cldf_spec w));;
  cldf_write_ E kw.

(** The calls [write] makes on the handle before the requirements. *)
Definition calls_before_freeze (w : CLDFWriter) : list cldf_call :=
  SetProperty "rdf:type" "http://www.w3.org/ns/dcat#Distribution" ::
  match repo_records (dataset w) ++ catalog_records (args w) with
  | [] => []
  | srcs => [AddProvenance "wasDerivedFrom" srcs]
  end.

(** The state [write] is in when it reaches the requirements: the calls
    so far are on the handle. *)
Definition state_before_freeze (w : CLDFWriter) (fs : FS) : State :=
  {| self := set_cldf {| tables := tables (cldf w);
                         calls := calls (cldf w) ++ calls_before_freeze w |} w;
     fs := fs |}.

(** A computation every run of which takes a state to an [R]-related
    one, whatever its outcome. *)
Definition steps {A} (R : relation State) (m : M State A) : Prop :=
  ∀ s r s', m s = (r, s') → R s s'.

(** The handle has received further calls, all of them in [P]; the rest
    of the writer is as it was. *)
Definition calls_extended (P : cldf_call → Prop) (s s' : State) : Prop :=
  ∃ new, self s' = set_cldf {| tables := tables (cldf (self s));
                               calls := calls (cldf (self s)) ++ new |} (self s) ∧
         Forall P new.

(** A file that was there is still there. *)
Definition file_kept (p : Path) (s s' : State) : Prop :=
  is_file (fs s) p = true → is_file (fs s') p = true.

Definition is_wasDerivedFrom (c : cldf_call) : Prop :=
  match c with AddProvenance "wasDerivedFrom" _ => True | _ => False end.

Definition is_wasGeneratedBy (c : cldf_call) : Prop :=
  match c with AddProvenance "wasGeneratedBy" _ => True | _ => False end.

(** ** A concrete environment

    The registry of pycldf, a package directory with the template of the
    Generic module, a loader that accepts a file starting with a brace,
    and a [write] of the library that writes the tables it is given. *)

Definition pycldf_modules : list Module :=
  map (λ ni, {| id := ni.1; cls := {| cls_name := ni.1; cls_ident := ni.2 |} |})
    [("Generic", 1); ("Wordlist", 2); ("StructureDataset", 3); ("Dictionary", 4);
     ("ParallelText", 5)].

Definition demo_from_metadata (c : DatasetClass) (p : Path) (fs : FS)
  : result Dataset :=
  match fs_stat fs p with
  | Some (File (String "{" _)) => Return {| tables := ["ValueTable"]; calls := [] |}
  | Some (File _) => Raise {| exc := OtherError "JSONDecodeError"; exc_msg := Path_str p |}
  | Some Dir => Raise {| exc := IsADirectoryError; exc_msg := Path_str p |}
  | None => Raise {| exc := FileNotFoundError; exc_msg := Path_str p |}
  end.

Definition demo_cldf_write (d : Dataset) (kw : kwargs) (fs : FS)
  : list (Path * string) * option exn :=
  (map (λ t, (Path_of_str ("out/" +:+ t.1 +:+ ".csv"), "rows")) kw, None).

Definition demo_env (pip : run_outcome) : Env :=
  {| get_modules := pycldf_modules;
     pkg_dir := Path_of_str "/site-packages/pycldf";
     from_metadata := demo_from_metadata;
     sys_version := "3.7.3 (default, Apr  3 2019, 19:16:38) [GCC 8.0.1]";
     pip_freeze := pip;
     cldf_write := demo_cldf_write |}.

Definition pip_ok : run_outcome := Exited 0 "attrs==19.1.0".
Definition pip_exit_1 : run_outcome := Exited 1 "".
Definition pip_missing : run_outcome :=
  NotLaunched {| exc := FileNotFoundError;
                 exc_msg := "[Errno 2] No such file or directory: 'pip'" |}.

(** A file system with the packaged template and nothing else, and one
    that also has a file that is not metadata. *)
Definition demo_fs : FS :=
  {[ Path_of_str "/site-packages/pycldf/modules/Generic-metadata.json" := File "{}" ]}.

Definition demo_fs_bad : FS :=
  <[ Path_of_str "notes.txt" := File "hello" ]> demo_fs.

Definition glottolog : Catalog :=
  {| catalog_json_ld := JObj [("dc:title", JStr "glottolog")] |}.

Definition demo_args : Namespace :=
  [("glottolog", PyCatalog glottolog); ("verbosity", PyOther "1")].

(** The writer that [CLDFWriter('out', args=demo_args)] builds on
    [demo_fs], the file system it leaves, and a scope body that appends a
    row and then fails. *)
Definition demo_writer : CLDFWriter :=
  {| cldf_spec := {| module := "Generic";
                     default_metadata_path :=
                       Path_of_str "/site-packages/pycldf/modules/Generic-metadata.json";
                     metadata_fname := "Generic-metadata.json";
                     data_fnames := [] |};
     objects := [];
     args := Some demo_args;
     dataset := None;
     dir := Path_of_str "out";
     cldf := {| tables := ["ValueTable"]; calls := [] |} |}.

Definition demo_out_fs : FS :=
  <[ Path_of_str "out/Generic-metadata.json" := File "{}" ]>
    (<[ Path_of_str "out" := Dir ]> demo_fs).

Definition demo_state : State := {| self := demo_writer; fs := demo_out_fs |}.

(** The same writer with a file name override for a table the handle
    does not have. *)
Definition demo_writer_lang : CLDFWriter :=
  {| cldf_spec := {| module := "Generic";
                     default_metadata_path := default_metadata_path (cldf_spec demo_writer);
                     metadata_fname := "Generic-metadata.json";
                     data_fnames := [("LanguageTable", "languages.csv")] |};
     objects := [];
     args := None;
     dataset := None;
     dir := Path_of_str "out";
     cldf := {| tables := ["ValueTable"]; calls := [] |} |}.

Definition failing_body : M State unit := λ s,
  (Raise {| exc := ValueError; exc_msg := "bad row" |},
   {| self := set_objects (objects_append "ValueTable" [("ID", "1")] (objects (self s)))
                (self s);
      fs := fs s |}).

(** A scope body that appends two rows to [ValueTable] and returns. *)
Definition append_rows_body : M State unit := λ s,
  (Return (),
   {| self := set_objects
                (objects_append "ValueTable" [("ID", "2")]
                   (objects_append "ValueTable" [("ID", "1")] (objects (self s))))
                (self s);
      fs := fs s |}).

(** The concrete writer with a file name override for its one table, and
    a spec whose template is not on the file system. *)
Definition demo_writer_values : CLDFWriter :=
  {| cldf_spec := {| module := "Generic";
                     default_metadata_path := default_metadata_path (cldf_spec demo_writer);
                     metadata_fname := "Generic-metadata.json";
                     data_fnames := [("ValueTable", "values.csv")] |};
     objects := [];
     args := Some demo_args;
     dataset := None;
     dir := Path_of_str "out";
     cldf := {| tables := ["ValueTable"]; calls := [] |} |}.

Definition demo_spec_wordlist : CLDFSpec :=
  {| module := "Wordlist";
     default_metadata_path :=
       Path_of_str "/site-packages/pycldf/modules/Wordlist-metadata.json";
     metadata_fname := "Wordlist-metadata.json";
     data_fnames := [] |}.

Definition demo_spec_missing : CLDFSpec :=
  {| module := "Generic";
     default_metadata_path := Path_of_str "templates/missing.json";
     metadata_fname := "cldf-metadata.json";
     data_fnames := [] |}.

(** A class named like the registered Wordlist class that is not it, and
    a scope body that keys a table ["self"]. *)
Definition my_wordlist : DatasetClass := {| cls_name := "Wordlist"; cls_ident := 99 |}.

Definition self_table_body : M State unit := λ s,
  (Return (),
   {| self := set_objects (objects_append "self" [("ID", "1")] (objects (self s)))
                (self s);
      fs := fs s |}).

(** The [SetUrl] calls of the file name overrides, in their order. *)
Definition link_calls (items : list (string * string)) : list cldf_call :=
  map (λ cf, SetUrl cf.1 cf.2) items.

(** * Properties *)

(** ** Running computations *)

Lemma bind_run {S A B} (m : M S A) (k : A → M S B) (s : S) :
  (m ≫= k) s = match m s with
               | (Return a, s') => k a s'
               | (Raise e, s') => (Raise e, s')
               end.
Proof. reflexivity. Qed.

Lemma ret_run {S A} (a : A) (s : S) : (mret a : M S A) s = (Return a, s).
Proof. reflexivity. Qed.

Lemma raise_run {S A} (e : exn) (s : S) : (raise e : M S A) s = (Raise e, s).
Proof. reflexivity. Qed.

Ltac run_step :=
  rewrite ?bind_run, ?ret_run, ?raise_run; cbn beta iota.

(** ** CLDFSpec *)

Section SpecProperties.
Variable E : Env.

Lemma module_validator_known value (fs : FS) :
  value ∈ map id (get_modules E) →
  module_validator E value fs = (Return (), fs).
Proof.
  intros Hin. unfold module_validator.
  rewrite bool_decide_eq_true_2 by done. reflexivity.
Qed.

Lemma module_validator_unknown value (fs : FS) :
  value ∉ map id (get_modules E) →
  ∃ msg, module_validator E value fs
         = (Raise {| exc := ValueError; exc_msg := msg |}, fs).
Proof.
  intros Hin. unfold module_validator.
  rewrite bool_decide_eq_false_2 by done. eexists. reflexivity.
Qed.

(** The resolution of the template path leaves the file system alone, and
    returns the path given, or the packaged template. *)
Lemma resolve_default_metadata_path_inv module dmp (fs fs' : FS) p :
  resolve_default_metadata_path E module dmp fs = (Return p, fs') →
  fs' = fs ∧
  p = match dmp with
      | Some a => if path_arg_truthy a then pathlib_Path a
                  else packaged_metadata E module
      | None => packaged_metadata E module
      end.
Proof.
  unfold resolve_default_metadata_path.
  destruct dmp as [a|]; [destruct (path_arg_truthy a)|].
  - unfold try_except, load_metadata. rewrite bind_run.
    destruct (from_metadata E Dataset_cls (pathlib_Path a) fs); cbn.
    + intros [= <- <-]. done.
    + intros [=].
  - intros [= <- <-]. done.
  - intros [= <- <-]. done.
Qed.

Lemma CLDFSpec_attrs_post_init_inv module dmp fname dfn (fs fs' : FS) spec :
  CLDFSpec_attrs_post_init E module dmp fname dfn fs = (Return spec, fs') →
  ∃ p, resolve_default_metadata_path E module dmp fs = (Return p, fs') ∧
       spec = {| module := module; default_metadata_path := p;
                 metadata_fname := match fname with
                                   | Some s => if str_nonempty s then s else Path_name p
                                   | None => Path_name p
                                   end;
                 data_fnames := dfn |}.
Proof.
  unfold CLDFSpec_attrs_post_init. rewrite bind_run.
  destruct (resolve_default_metadata_path E module dmp fs) as [[p|e] fs1]; cbn.
  - intros [= <- <-]. eauto.
  - intros [=].
Qed.

Lemma CLDFSpec_init_inv module dmp fname dfn (fs fs' : FS) spec :
  CLDFSpec_init E module dmp fname dfn fs = (Return spec, fs') →
  module_converter (default (ModuleName "Generic") module) ∈ map id (get_modules E) ∧
  CLDFSpec_attrs_post_init E
    (module_converter (default (ModuleName "Generic") module)) dmp fname
    (default [] dfn) fs = (Return spec, fs').
Proof.
  unfold CLDFSpec_init.
  set (name := module_converter (default (ModuleName "Generic") module)).
  rewrite bind_run. intros H.
  destruct (decide (name ∈ map id (get_modules E))) as [Hin|Hin].
  - rewrite module_validator_known in H by done. done.
  - destruct (module_validator_unknown name fs Hin) as [msg Hmsg].
    rewrite Hmsg in H. discriminate.
Qed.

(** C2. Constructing a [CLDFSpec] whose module identifier (the name given,
    the [__name__] of the class given, or the default when omitted) is not
    among the identifiers of the registry fails with [ValueError], the
    configuration error of the module, whatever the other arguments are;
    the file system is not touched. *)
Theorem CLDFSpec_init_unknown_module module dmp fname dfn (fs : FS) :
  module_converter (default (ModuleName "Generic") module) ∉ map id (get_modules E) →
  ∃ msg, CLDFSpec_init E module dmp fname dfn fs
         = (Raise {| exc := ValueError; exc_msg := msg |}, fs).
Proof.
  intros Hin. unfold CLDFSpec_init. rewrite bind_run.
  destruct (module_validator_unknown _ fs Hin) as [msg ->]. eauto.
Qed.

(** C3. When a [CLDFSpec] is constructed with a default metadata path that
    pycldf fails to load as dataset metadata, whatever exception the load
    raises is caught and [ValueError] is raised in its place, with the
    message [invalid default metadata: <path>]: by [__attrs_post_init__]
    for every spec, and so by the constructor whenever the module has
    passed validation and the load is reached. *)
Theorem CLDFSpec_invalid_default_metadata a (fs : FS) e :
  path_arg_truthy a = true →
  from_metadata E Dataset_cls (pathlib_Path a) fs = Raise e →
  (∀ module fname dfn,
     CLDFSpec_attrs_post_init E module (Some a) fname dfn fs
     = (Raise {| exc := ValueError;
                 exc_msg := "invalid default metadata: " +:+ Path_str (pathlib_Path a) |},
        fs)) ∧
  (∀ module fname dfn,
     module_converter (default (ModuleName "Generic") module) ∈ map id (get_modules E) →
     CLDFSpec_init E module (Some a) fname dfn fs
     = (Raise {| exc := ValueError;
                 exc_msg := "invalid default metadata: " +:+ Path_str (pathlib_Path a) |},
        fs)).
Proof.
  intros Ha Hload.
  assert (Hpost : ∀ module fname dfn,
     CLDFSpec_attrs_post_init E module (Some a) fname dfn fs
     = (Raise {| exc := ValueError;
                 exc_msg := "invalid default metadata: " +:+ Path_str (pathlib_Path a) |},
        fs)).
  { intros module fname dfn.
    unfold CLDFSpec_attrs_post_init, resolve_default_metadata_path.
    rewrite Ha, bind_run. unfold try_except, load_metadata.
    rewrite bind_run, Hload. reflexivity. }
  split; [exact Hpost|].
  intros module fname dfn Hin. unfold CLDFSpec_init.
  rewrite bind_run, module_validator_known by done. apply Hpost.
Qed.

(** C8. Every [CLDFSpec] constructed without a metadata file name has,
    after construction, the base name of its resolved default metadata
    path as [metadata_fname], where the resolved path is the one the
    caller supplied or else the packaged template of the module. *)
Theorem CLDFSpec_metadata_fname_default modarg dmp dfn (fs fs' : FS) spec :
  CLDFSpec_init E modarg dmp None dfn fs = (Return spec, fs') →
  metadata_fname spec = Path_name (default_metadata_path spec) ∧
  default_metadata_path spec
  = match dmp with
    | Some a => if path_arg_truthy a then pathlib_Path a
                else packaged_metadata E (module spec)
    | None => packaged_metadata E (module spec)
    end.
Proof.
  intros H. apply CLDFSpec_init_inv in H as [_ H].
  apply CLDFSpec_attrs_post_init_inv in H as (p & Hp & ->).
  apply resolve_default_metadata_path_inv in Hp as [_ ->]. done.
Qed.

End SpecProperties.

Lemma CLDFSpec_init_unknown_module_witness :
  (module_converter (default (ModuleName "Generic") (Some (ModuleName "Phonology")))
     ∉ map id (get_modules (demo_env pip_ok))) ∧
  ∃ msg, CLDFSpec_init (demo_env pip_ok) (Some (ModuleName "Phonology")) None None None demo_fs
         = (Raise {| exc := ValueError; exc_msg := msg |}, demo_fs).
Proof.
  assert (H : module_converter (default (ModuleName "Generic") (Some (ModuleName "Phonology")))
              ∉ map id (get_modules (demo_env pip_ok))).
  { apply (bool_decide_unpack _). vm_compute. exact I. }
  split; [exact H|].
  exact (CLDFSpec_init_unknown_module (demo_env pip_ok) _ None None None demo_fs H).
Defined.

Lemma CLDFSpec_invalid_default_metadata_witness :
  path_arg_truthy (PathStr "notes.txt") = true ∧
  from_metadata (demo_env pip_ok) Dataset_cls (pathlib_Path (PathStr "notes.txt")) demo_fs_bad
  = Raise {| exc := OtherError "JSONDecodeError"; exc_msg := "notes.txt" |} ∧
  CLDFSpec_init (demo_env pip_ok) (Some (ModuleName "Wordlist"))
    (Some (PathStr "notes.txt")) None None demo_fs_bad
  = (Raise {| exc := ValueError;
              exc_msg := "invalid default metadata: " +:+
                         Path_str (pathlib_Path (PathStr "notes.txt")) |},
     demo_fs_bad).
Proof.
  assert (Ha : path_arg_truthy (PathStr "notes.txt") = true) by reflexivity.
  assert (Hload : from_metadata (demo_env pip_ok) Dataset_cls
                    (pathlib_Path (PathStr "notes.txt")) demo_fs_bad
                  = Raise {| exc := OtherError "JSONDecodeError"; exc_msg := "notes.txt" |}).
  { vm_compute. reflexivity. }
  assert (Hin : module_converter (default (ModuleName "Generic") (Some (ModuleName "Wordlist")))
                ∈ map id (get_modules (demo_env pip_ok))).
  { apply (bool_decide_unpack _). vm_compute. exact I. }
  split; [exact Ha|]. split; [exact Hload|].
  exact (proj2 (CLDFSpec_invalid_default_metadata (demo_env pip_ok) _ _ _ Ha Hload)
           (Some (ModuleName "Wordlist")) None None Hin).
Defined.

Lemma CLDFSpec_metadata_fname_default_witness :
  let spec := {| module := "Generic";
                 default_metadata_path :=
                   Path_of_str "/site-packages/pycldf/modules/Generic-metadata.json";
                 metadata_fname := "Generic-metadata.json";
                 data_fnames := [] |} in
  CLDFSpec_init (demo_env pip_ok) (Some (ModuleName "Generic")) None None None demo_fs
  = (Return spec, demo_fs) ∧
  metadata_fname spec = Path_name (default_metadata_path spec) ∧
  default_metadata_path spec = packaged_metadata (demo_env pip_ok) (module spec).
Proof.
  intros spec.
  assert (H : CLDFSpec_init (demo_env pip_ok) (Some (ModuleName "Generic")) None None None
                demo_fs = (Return spec, demo_fs)).
  { subst spec. generalize demo_fs. intros fs. vm_compute. reflexivity. }
  split; [exact H|].
  exact (CLDFSpec_metadata_fname_default (demo_env pip_ok) _ None None _ _ _ H).
Defined.

(** ** The file system under the writer's operations *)

Lemma Path_exists_insert (fs : FS) p n q :
  Path_exists fs q = true → Path_exists (<[p := n]> fs) q = true.
Proof.
  unfold Path_exists, fs_stat. destruct (parts q); [done|].
  destruct (decide (p = q)) as [->|Hne].
  - by rewrite lookup_insert_eq.
  - by rewrite lookup_insert_ne.
Qed.

Lemma Path_exists_insert_eq (fs : FS) p n : Path_exists (<[p := n]> fs) p = true.
Proof.
  unfold Path_exists, fs_stat. destruct (parts p); [done|].
  by rewrite lookup_insert_eq.
Qed.

Lemma Path_open_wb_exists p (fs fs' : FS) r q :
  Path_open_wb p fs = (r, fs') → Path_exists fs q = true → Path_exists fs' q = true.
Proof.
  unfold Path_open_wb. intros H Hq.
  destruct (fs_stat fs p) as [[|c]|];
    [| |destruct (fs_stat fs (Path_parent p)) as [[|c]|]];
    injection H as <- <-; auto using Path_exists_insert.
Qed.

Lemma Path_open_wb_inv p (fs fs1 : FS) f :
  Path_open_wb p fs = (Return f, fs1) →
  f = p ∧ fs1 = <[p := File ""]> fs ∧ parts p ≠ [].
Proof.
  intros H.
  assert (Hparts : parts p ≠ []).
  { intros Hnil. unfold Path_open_wb, fs_stat in H. rewrite Hnil in H.
    discriminate. }
  unfold Path_open_wb in H.
  destruct (fs_stat fs p) as [[|c]|];
    [discriminate| |destruct (fs_stat fs (Path_parent p)) as [[|c]|]];
    try discriminate; by injection H as <- <-.
Qed.

Lemma is_dir_insert_file (fs : FS) p c q :
  fs_stat fs p ≠ Some Dir →
  is_dir fs q = true → is_dir (<[p := File c]> fs) q = true.
Proof.
  unfold is_dir, fs_stat. intros Hp Hq.
  destruct (parts q) eqn:Hparts; [done|].
  destruct (decide (p = q)) as [->|Hne].
  - rewrite Hparts in Hp. by destruct (fs !! q) as [[|c']|].
  - by rewrite lookup_insert_ne.
Qed.

Lemma Path_open_wb_is_dir p (fs fs1 : FS) r q :
  Path_open_wb p fs = (r, fs1) → is_dir fs q = true → is_dir fs1 q = true.
Proof.
  unfold Path_open_wb. intros H Hq.
  destruct (fs_stat fs p) as [[|c]|] eqn:Hp;
    [| |destruct (fs_stat fs (Path_parent p)) as [[|c]|]];
    injection H as <- <-; try done;
    apply is_dir_insert_file; try done; by rewrite Hp.
Qed.

Lemma shutil_copy_is_dir src dst (fs fs' : FS) r q :
  shutil_copy src dst fs = (r, fs') → is_dir fs q = true → is_dir fs' q = true.
Proof.
  unfold shutil_copy. intros H Hq.
  set (dst' := if is_dir fs (Path_of_str dst)
               then os_path_join dst (os_path_basename src) else dst) in H.
  destruct (bool_decide (Path_of_str src = Path_of_str dst') &&
            Path_exists fs (Path_of_str src)).
  { injection H as <- <-. done. }
  rewrite bind_run in H. unfold read_file in H.
  destruct (fs_stat fs (Path_of_str src)) as [[|c]|];
    try (injection H as <- <-; done).
  rewrite bind_run in H.
  destruct (Path_open_wb (Path_of_str dst') fs) as [[f|e] fs1] eqn:Hopen.
  - pose proof (Path_open_wb_is_dir _ _ _ _ _ Hopen Hq) as Hq1.
    apply Path_open_wb_inv in Hopen as (-> & -> & Hparts).
    unfold file_write in H. rewrite bind_run in H. injection H as <- <-.
    apply is_dir_insert_file; [|done].
    unfold fs_stat. destruct (parts (Path_of_str dst')); [done|].
    by rewrite lookup_insert_eq.
  - injection H as <- <-. eauto using Path_open_wb_is_dir.
Qed.

Lemma shutil_copy_exists src dst (fs fs' : FS) r q :
  shutil_copy src dst fs = (r, fs') → Path_exists fs q = true → Path_exists fs' q = true.
Proof.
  unfold shutil_copy. intros H Hq.
  set (dst' := if is_dir fs (Path_of_str dst)
               then os_path_join dst (os_path_basename src) else dst) in H.
  destruct (bool_decide (Path_of_str src = Path_of_str dst') &&
            Path_exists fs (Path_of_str src)).
  { injection H as <- <-. done. }
  rewrite bind_run in H. unfold read_file in H.
  destruct (fs_stat fs (Path_of_str src)) as [[|c]|];
    try (injection H as <- <-; done).
  rewrite bind_run in H.
  destruct (Path_open_wb (Path_of_str dst') fs) as [[f|e] fs1] eqn:Hopen.
  - unfold file_write in H. rewrite bind_run in H. injection H as <- <-.
    apply Path_exists_insert. eauto using Path_open_wb_exists.
  - injection H as <- <-. eauto using Path_open_wb_exists.
Qed.

Lemma ensure_outdir_present p (fs : FS) :
  Path_exists fs p = true → ensure_outdir p fs = (Return (), fs).
Proof. intros H. unfold ensure_outdir. rewrite bind_run, H. reflexivity. Qed.

Lemma ensure_outdir_absent p (fs : FS) :
  Path_exists fs p = false → ensure_outdir p fs = Path_mkdir p fs.
Proof. intros H. unfold ensure_outdir. rewrite bind_run, H. reflexivity. Qed.

Lemma ensure_outdir_exists p (fs fs' : FS) :
  ensure_outdir p fs = (Return (), fs') → Path_exists fs' p = true.
Proof.
  destruct (Path_exists fs p) eqn:Hex.
  - rewrite ensure_outdir_present by done. by intros [= <-].
  - rewrite ensure_outdir_absent by done. unfold Path_mkdir.
    destruct (fs_stat fs p); [intros [=]|].
    destruct (fs_stat fs (Path_parent p)) as [[|c]|]; intros [= <-].
    apply Path_exists_insert_eq.
Qed.

Lemma Path_parent_joinpath p name :
  Path_of_str name = {| root := ""; parts := [name] |} →
  Path_parent (Path_joinpath p name) = {| root := root p; parts := parts p |}.
Proof.
  intros H. unfold Path_joinpath, Path_join, Path_parent. rewrite H. cbn.
  by rewrite removelast_last.
Qed.

(** ** CLDFWriter: construction *)

Section WriterConstruction.
Variable E : Env.

Lemma CLDFSpec_init_fs modarg dmp fname dfn (fs fs' : FS) r :
  CLDFSpec_init E modarg dmp fname dfn fs = (r, fs') → fs' = fs.
Proof.
  unfold CLDFSpec_init. rewrite bind_run. unfold module_validator.
  case_bool_decide; cbn; [|by intros [= _ <-]].
  unfold CLDFSpec_attrs_post_init, resolve_default_metadata_path.
  rewrite bind_run.
  destruct dmp as [a|]; [destruct (path_arg_truthy a)|]; cbn;
    try (by intros [= _ <-]).
  unfold try_except, load_metadata. rewrite bind_run.
  destruct (from_metadata E Dataset_cls (pathlib_Path a) fs); cbn;
    by intros [= _ <-].
Qed.

Lemma CLDFWriter_init_inv outdir cldf_spec args ds (fs fs' : FS) w :
  CLDFWriter_init E outdir cldf_spec args ds fs = (Return w, fs') →
  ∃ spec fs1 dst c,
    resolves_to E cldf_spec fs spec ∧
    ensure_outdir (pathlib_Path outdir) fs = (Return (), fs1) ∧
    shutil_copy (Path_str (default_metadata_path spec))
      (Path_str (Path_joinpath (pathlib_Path outdir) (metadata_fname spec))) fs1
    = (Return dst, fs') ∧
    CLDFSpec_cls E spec = Some c ∧
    from_metadata E c (Path_joinpath (pathlib_Path outdir) (metadata_fname spec)) fs'
    = Return (cldf w) ∧
    w = {| cldf_spec := spec; objects := []; args := args; dataset := ds;
           dir := pathlib_Path outdir; cldf := cldf w |}.
Proof.
  unfold CLDFWriter_init. rewrite bind_run. intros H.
  assert (∃ spec, resolves_to E cldf_spec fs spec ∧
            match cldf_spec with
            | Some spec => mret spec
            | None => CLDFSpec_init E None None None None
            end fs = (Return spec, fs)) as (spec & Hres & Hspec).
  { destruct cldf_spec as [sp|]; cbn in *; [by exists sp|].
    destruct (CLDFSpec_init E None None None None fs) as [[spec|e] fs0] eqn:Hinit;
      [|discriminate].
    pose proof (CLDFSpec_init_fs _ _ _ _ _ _ _ Hinit) as ->. by exists spec. }
  rewrite Hspec in H. rewrite bind_run in H.
  destruct (ensure_outdir (pathlib_Path outdir) fs) as [[[]|e] fs1] eqn:Hdir;
    [|discriminate].
  rewrite bind_run in H.
  destruct (shutil_copy _ _ fs1) as [[dst|e] fs2] eqn:Hcopy; [|discriminate].
  destruct (CLDFSpec_cls E spec) as [c|] eqn:Hcls; [|discriminate].
  rewrite bind_run in H. unfold load_metadata in H.
  destruct (from_metadata E c _ fs2) as [d|e] eqn:Hload; [|discriminate].
  injection H as <- <-. exists spec, fs1, dst, c. done.
Qed.

Lemma CLDFSpec_cls_Some spec c :
  CLDFSpec_cls E spec = Some c →
  ∃ m, m ∈ get_modules E ∧ id m = module spec ∧ cls m = c.
Proof.
  unfold CLDFSpec_cls. intros (m & Hfind & ->)%fmap_Some.
  apply List.find_some in Hfind as [Hin Heq].
  exists m. split; [by apply list_elem_of_In|].
  split; [by apply String.eqb_eq|done].
Qed.

(** The constructor is the spec it settles on, the directory step, and
    the rest. *)
Lemma CLDFWriter_init_steps outdir cldf_spec args ds (fs : FS) spec :
  resolves_to E cldf_spec fs spec →
  CLDFWriter_init E outdir cldf_spec args ds fs
  = (ensure_outdir (pathlib_Path outdir);;
     CLDFWriter_init_after_outdir E (pathlib_Path outdir) spec args ds) fs.
Proof.
  intros Hres. unfold CLDFWriter_init. rewrite bind_run.
  assert (match cldf_spec with
          | Some spec => mret spec
          | None => CLDFSpec_init E None None None None
          end fs = (Return spec, fs)) as ->; [|done].
  destruct cldf_spec as [sp|]; cbn in *; by subst.
Qed.

Lemma CLDFWriter_init_after_outdir_is_dir p spec args ds (fs fs' : FS) r q :
  CLDFWriter_init_after_outdir E p spec args ds fs = (r, fs') →
  is_dir fs q = true → is_dir fs' q = true.
Proof.
  unfold CLDFWriter_init_after_outdir. rewrite bind_run. intros H Hq.
  destruct (shutil_copy _ _ fs) as [r1 fs1] eqn:Hcopy.
  pose proof (shutil_copy_is_dir _ _ _ _ _ _ Hcopy Hq) as Hq1.
  destruct r1 as [dst|e]; [|by injection H as <- <-].
  destruct (CLDFSpec_cls E spec) as [c|]; [|by injection H as <- <-].
  rewrite bind_run in H. unfold load_metadata in H.
  by destruct (from_metadata E c _ fs1); injection H as <- <-.
Qed.

(** C7. The constructor of [CLDFWriter] makes sure the output directory
    exists.  A path that exists is left as it is: the constructor does
    what it does from the copy on, on the file system as it found it, and
    an output directory that is a directory is still one afterwards.  A
    missing path whose parent is a directory is created, it and nothing
    else, before the copy: the constructor does what it does from the copy
    on, on the file system with that one directory added, and whether it
    then returns or raises the directory is there.  When the parent is
    missing as well, so that more than one level would have to be created,
    the constructor fails with [FileNotFoundError], an I/O error, and
    creates nothing.  A writer that is returned has its output directory
    on the file system. *)
Theorem CLDFWriter_init_outdir outdir cldf_spec args ds (fs : FS) spec :
  resolves_to E cldf_spec fs spec →
  (Path_exists fs (pathlib_Path outdir) = true →
     ensure_outdir (pathlib_Path outdir) fs = (Return (), fs) ∧
     CLDFWriter_init E outdir cldf_spec args ds fs
     = CLDFWriter_init_after_outdir E (pathlib_Path outdir) spec args ds fs ∧
     (is_dir fs (pathlib_Path outdir) = true →
      is_dir (CLDFWriter_init E outdir cldf_spec args ds fs).2 (pathlib_Path outdir)
      = true)) ∧
  (Path_exists fs (pathlib_Path outdir) = false →
   is_dir fs (Path_parent (pathlib_Path outdir)) = true →
     ensure_outdir (pathlib_Path outdir) fs
     = (Return (), <[pathlib_Path outdir := Dir]> fs) ∧
     CLDFWriter_init E outdir cldf_spec args ds fs
     = CLDFWriter_init_after_outdir E (pathlib_Path outdir) spec args ds
         (<[pathlib_Path outdir := Dir]> fs) ∧
     is_dir (CLDFWriter_init E outdir cldf_spec args ds fs).2 (pathlib_Path outdir)
     = true) ∧
  (Path_exists fs (pathlib_Path outdir) = false →
   Path_exists fs (Path_parent (pathlib_Path outdir)) = false →
     ∃ e, exc e = FileNotFoundError ∧ is_OSError e = true ∧
          CLDFWriter_init E outdir cldf_spec args ds fs = (Raise e, fs)) ∧
  (∀ w fs', CLDFWriter_init E outdir cldf_spec args ds fs = (Return w, fs') →
     ∃ fs1 dst,
       ensure_outdir (pathlib_Path outdir) fs = (Return (), fs1) ∧
       shutil_copy (Path_str (default_metadata_path spec))
         (Path_str (Path_joinpath (pathlib_Path outdir) (metadata_fname spec))) fs1
       = (Return dst, fs') ∧
       Path_exists fs' (pathlib_Path outdir) = true).
Proof.
  intros Hres. set (p := pathlib_Path outdir).
  pose proof (CLDFWriter_init_steps outdir cldf_spec args ds fs spec Hres) as Hsteps.
  fold p in Hsteps. rewrite bind_run in Hsteps.
  split.
  { intros Hex. rewrite ensure_outdir_present in Hsteps by done.
    split; [by apply ensure_outdir_present|]. split; [exact Hsteps|].
    intros Hdir. rewrite Hsteps.
    destruct (CLDFWriter_init_after_outdir E p spec args ds fs) as [r fs'] eqn:Hrest.
    eauto using CLDFWriter_init_after_outdir_is_dir. }
  assert (Hmk : Path_exists fs p = false → is_dir fs (Path_parent p) = true →
                ensure_outdir p fs = (Return (), <[p := Dir]> fs)).
  { intros Hex Hpar. rewrite ensure_outdir_absent by done.
    unfold Path_mkdir, Path_exists, is_dir in *.
    destruct (fs_stat fs p); [done|].
    by destruct (fs_stat fs (Path_parent p)) as [[|c]|]. }
  split.
  { intros Hex Hpar. rewrite Hmk in Hsteps by done.
    split; [by apply Hmk|]. split; [exact Hsteps|]. rewrite Hsteps.
    destruct (CLDFWriter_init_after_outdir E p spec args ds (<[p := Dir]> fs))
      as [r fs'] eqn:Hrest.
    apply (CLDFWriter_init_after_outdir_is_dir _ _ _ _ _ _ _ p) in Hrest; [done|].
    unfold is_dir, Path_exists, fs_stat in *.
    destruct (parts p); [done|]. by rewrite lookup_insert_eq. }
  split.
  { intros Hex Hpar.
    exists {| exc := FileNotFoundError; exc_msg := Path_str p |}.
    split; [done|]. split; [done|].
    rewrite Hsteps, ensure_outdir_absent by done.
    unfold Path_mkdir, Path_exists in *.
    destruct (fs_stat fs p); [done|].
    by destruct (fs_stat fs (Path_parent p)). }
  intros w fs' Hinit.
  apply CLDFWriter_init_inv in Hinit
    as (spec' & fs1 & dst & c & Hres' & Hdir & Hcopy & _).
  assert (spec' = spec) as ->.
  { destruct cldf_spec; cbn in *; congruence. }
  exists fs1, dst. split; [done|]. split; [done|].
  eauto using shutil_copy_exists, ensure_outdir_exists.
Qed.

(** C10. A [CLDFSpec] constructed without a module argument has the module
    ["Generic"]; so a [CLDFWriter] constructed without a spec has a spec
    of the module ["Generic"], copies the template
    [Generic-metadata.json], and its handle is the one the class
    registered for ["Generic"] loads from that copy. *)
Theorem CLDFWriter_default_module_Generic outdir args ds (fs fs' : FS) w :
  CLDFWriter_init E outdir None args ds fs = (Return w, fs') →
  (∀ dmp fname dfn (fs0 fs1 : FS) spec,
     CLDFSpec_init E None dmp fname dfn fs0 = (Return spec, fs1) →
     module spec = "Generic") ∧
  CLDFSpec_init E None None None None fs = (Return (cldf_spec w), fs) ∧
  module (cldf_spec w) = "Generic" ∧
  metadata_fname (cldf_spec w) = "Generic-metadata.json" ∧
  ∃ m, m ∈ get_modules E ∧ id m = "Generic" ∧
       CLDFSpec_cls E (cldf_spec w) = Some (cls m) ∧
       from_metadata E (cls m)
         (Path_joinpath (pathlib_Path outdir) "Generic-metadata.json") fs'
       = Return (cldf w).
Proof.
  intros Hinit.
  assert (Hmod : ∀ dmp fname dfn (fs0 fs1 : FS) spec,
            CLDFSpec_init E None dmp fname dfn fs0 = (Return spec, fs1) →
            module spec = "Generic").
  { intros dmp fname dfn fs0 fs1 spec H.
    apply CLDFSpec_init_inv in H as [_ H].
    apply CLDFSpec_attrs_post_init_inv in H as (p & _ & ->). done. }
  split; [exact Hmod|].
  apply CLDFWriter_init_inv in Hinit
    as (spec & fs1 & dst & c & Hres & _ & _ & Hcls & Hload & Hw).
  cbn in Hres. rewrite Hw. cbn [cldf_spec cldf].
  assert (Hname : metadata_fname spec = "Generic-metadata.json").
  { pose proof Hres as H. apply CLDFSpec_init_inv in H as [_ H].
    apply CLDFSpec_attrs_post_init_inv in H as (p & Hp & ->).
    apply resolve_default_metadata_path_inv in Hp as [_ ->]. cbn.
    unfold packaged_metadata, pkg_path, Path_name. cbn.
    unfold Path_joinpath at 1.
    change (Path_of_str ("Generic" +:+ MD_SUFFIX))
      with {| root := ""; parts := ["Generic-metadata.json"] |}.
    unfold Path_join. cbn. by rewrite last_last. }
  split; [done|]. split; [eauto|]. split; [done|].
  apply CLDFSpec_cls_Some in Hcls as Hm. destruct Hm as (m & Hin & Hid & <-).
  exists m. rewrite (Hmod _ _ _ _ _ _ Hres) in Hid. rewrite Hname in Hload. done.
Qed.

End WriterConstruction.

(** ** CLDFWriter: write *)

#[global] Instance calls_extended_preorder P : PreOrder (calls_extended P).
Proof.
  split.
  - intros s. exists []. split; [|constructor].
    rewrite app_nil_r. by destruct s as [[? ? ? ? ? []] ?].
  - intros s1 s2 s3 (n1 & H1 & F1) (n2 & H2 & F2).
    exists (n1 ++ n2). split; [|by apply Forall_app].
    rewrite H2, H1. cbn. by rewrite app_assoc.
Qed.

#[global] Instance file_kept_preorder p : PreOrder (file_kept p).
Proof.
  split.
  - intros s H. exact H.
  - intros s1 s2 s3 H1 H2 H. apply H2, H1, H.
Qed.

Lemma steps_ret {A} (R : relation State) `{!Reflexive R} (a : A) : steps R (mret a).
Proof. intros s r s' [= <- <-]. reflexivity. Qed.

Lemma steps_raise {A} (R : relation State) `{!Reflexive R} e : steps R (raise e : M State A).
Proof. intros s r s' [= <- <-]. reflexivity. Qed.

Lemma steps_bind {A B} (R : relation State) `{!Transitive R}
    (m : M State A) (k : A → M State B) :
  steps R m → (∀ a, steps R (k a)) → steps R (m ≫= k).
Proof.
  intros Hm Hk s r s'. rewrite bind_run.
  destruct (m s) as [[a|e] s1] eqn:Hms.
  - intros Hks. etrans; [eapply Hm|eapply Hk]; eauto.
  - intros [= <- <-]. eauto.
Qed.

Lemma steps_try_except {A} (R : relation State) `{!Transitive R}
    (m : M State A) catches (h : exn → M State A) :
  steps R m → (∀ e, steps R (h e)) → steps R (try_except m catches h).
Proof.
  intros Hm Hh s r s'. unfold try_except.
  destruct (m s) as [[a|e] s1] eqn:Hms.
  - intros [= <- <-]. eauto.
  - destruct (catches e).
    + intros Hhs. etrans; [eapply Hm|eapply Hh]; eauto.
    + intros [= <- <-]. eauto.
Qed.

Lemma steps_get_self (R : relation State) `{!Reflexive R} : steps R get_self.
Proof. intros s r s' [= <- <-]. reflexivity. Qed.

Lemma catalog_sources_records args srcs :
  catalog_sources args srcs = srcs ++ catalog_records args.
Proof.
  destruct args as [ns|]; cbn; [|by rewrite app_nil_r].
  revert srcs. induction ns as [|[k v] ns IH]; intros srcs; cbn.
  - by rewrite app_nil_r.
  - rewrite IH. destruct v; cbn; [|done]. by rewrite <- app_assoc.
Qed.

Lemma repo_sources_records ds : repo_sources ds [] = repo_records ds.
Proof. by destruct ds as [[[r|]]|]. Qed.

Lemma Path_open_wb_requirements w (fs0 : FS) :
  is_dir fs0 (dir w) = true →
  is_dir fs0 (requirements_txt w) = false →
  Path_open_wb (requirements_txt w) fs0
  = (Return (requirements_txt w), <[requirements_txt w := File ""]> fs0).
Proof.
  intros Hdir Hreq. unfold Path_open_wb, is_dir in *.
  destruct (fs_stat fs0 (requirements_txt w)) as [[|c]|]; [done|done|].
  unfold requirements_txt. rewrite Path_parent_joinpath by reflexivity.
  replace {| root := root (dir w); parts := parts (dir w) |} with (dir w)
    by (by destruct (dir w)).
  by destruct (fs_stat fs0 (dir w)) as [[|c]|].
Qed.

Section WriteProperties.
Variable E : Env.

(** [write] up to the requirements: the calls made, on any state. *)
Lemma write_before_freeze kw w (fs0 : FS) :
  CLDFWriter_write E kw {| self := w; fs := fs0 |}
  = (version ← python_version E;
     reqs ← freeze_requirements E [python_entry version];
     write_after_freeze E reqs kw) (state_before_freeze w fs0).
Proof.
  unfold CLDFWriter_write, state_before_freeze, calls_before_freeze.
  rewrite bind_run. cbn [cldf_call_ self fs].
  rewrite bind_run. cbn [get_self self].
  cbn [set_cldf args dataset].
  rewrite catalog_sources_records, repo_sources_records.
  destruct (repo_records (dataset w) ++ catalog_records (args w)) as [|j srcs];
    rewrite bind_run; cbn.
  - reflexivity.
  - unfold set_cldf, record_call. cbn. by rewrite <- app_assoc.
Qed.

(** The requirements step when the file can be opened. *)
Lemma freeze_requirements_run reqs (s : State) :
  is_dir (fs s) (dir (self s)) = true →
  is_dir (fs s) (requirements_txt (self s)) = false →
  freeze_requirements E reqs s
  = match pip_freeze E with
    | NotLaunched e =>
        (if is_CalledProcessError e then Return reqs else Raise e,
         {| self := self s; fs := <[requirements_txt (self s) := File ""]> (fs s) |})
    | Exited rc out =>
        (Return (if (rc =? 0)%Z then reqs ++ [packages_entry] else reqs),
         {| self := self s; fs := <[requirements_txt (self s) := File out]> (fs s) |})
    end.
Proof.
  intros Hdir Hreq. unfold freeze_requirements, try_except.
  rewrite bind_run. cbn [get_self]. rewrite bind_run.
  unfold on_fs at 1. fold (requirements_txt (self s)).
  rewrite Path_open_wb_requirements by done.
  rewrite bind_run. unfold on_fs, subprocess_run. cbn [fs self].
  destruct (pip_freeze E) as [e|rc out].
  - by destruct (is_CalledProcessError e).
  - rewrite bind_run. unfold file_write. rewrite insert_insert_eq.
    by destruct (rc =? 0)%Z.
Qed.

(** [write] when the version string has a token and the requirements
    file can be opened, by the outcome of [pip freeze]. *)
Lemma write_run kw w (fs0 : FS) v rest :
  str_split_ws (sys_version E) = v :: rest →
  is_dir fs0 (dir w) = true →
  is_dir fs0 (requirements_txt w) = false →
  CLDFWriter_write E kw {| self := w; fs := fs0 |}
  = match pip_freeze E with
    | NotLaunched e =>
        if is_CalledProcessError e
        then write_after_freeze E [python_entry v] kw
               (state_before_freeze w (<[requirements_txt w := File ""]> fs0))
        else (Raise e, state_before_freeze w (<[requirements_txt w := File ""]> fs0))
    | Exited rc out =>
        write_after_freeze E
          (if (rc =? 0)%Z then [python_entry v; packages_entry] else [python_entry v])
          kw (state_before_freeze w (<[requirements_txt w := File out]> fs0))
    end.
Proof.
  intros Hv Hdir Hreq. rewrite write_before_freeze, bind_run.
  unfold python_version. rewrite Hv, ret_run, bind_run.
  rewrite freeze_requirements_run by done. cbn [self fs state_before_freeze].
  destruct (pip_freeze E) as [e|rc out].
  - by destruct (is_CalledProcessError e).
  - by destruct (rc =? 0)%Z.
Qed.

(** *** The calls a step adds to the handle *)

Section Calls.
Variable P : cldf_call → Prop.

Lemma steps_cldf_call c : P c → steps (calls_extended P) (cldf_call_ c).
Proof.
  intros Hc s r s' [= <- <-]. exists [c]. split; [done|].
  by apply Forall_singleton.
Qed.

Lemma steps_on_fs_calls {A} (m : M FS A) : steps (calls_extended P) (on_fs m).
Proof.
  intros s r s'. unfold on_fs. destruct (m (fs s)) as [r1 fs1].
  intros [= <- <-]. cbn. exists []. split; [|constructor].
  rewrite app_nil_r. by destruct (self s) as [? ? ? ? ? []].
Qed.

Lemma steps_getitem_calls t : steps (calls_extended P) (CLDFWriter_getitem t).
Proof.
  intros s r s'. unfold CLDFWriter_getitem.
  case_bool_decide; intros [= <- <-]; reflexivity.
Qed.

Lemma steps_link_calls items :
  (∀ comp fname, P (SetUrl comp fname)) →
  steps (calls_extended P) (link_data_fnames items).
Proof.
  intros HP. induction items as [|[comp fname] items IH]; cbn.
  - apply steps_ret; apply _.
  - apply steps_bind; [apply _|apply steps_getitem_calls|]. intros _.
    apply steps_bind; [apply _|by apply steps_cldf_call|]. intros _. apply IH.
Qed.

Lemma steps_cldf_write_calls kw :
  P (CallWrite kw) → steps (calls_extended P) (cldf_write_ E kw).
Proof.
  intros HP s r s'. unfold cldf_write_.
  destruct (cldf_write E (cldf (self s)) kw (fs s)) as [files [e|]];
    intros [= <- <-]; (exists [CallWrite kw]; split; [done|by apply Forall_singleton]).
Qed.

Lemma steps_python_version_calls : steps (calls_extended P) (python_version E).
Proof.
  unfold python_version. destruct (str_split_ws (sys_version E));
    [apply steps_raise|apply steps_ret]; apply _.
Qed.

Lemma steps_freeze_calls reqs : steps (calls_extended P) (freeze_requirements E reqs).
Proof.
  unfold freeze_requirements. apply steps_try_except; [apply _| |].
  - apply steps_bind; [apply _|apply steps_get_self; apply _|]. intros w.
    apply steps_bind; [apply _|apply steps_on_fs_calls|]. intros f.
    apply steps_bind; [apply _|apply steps_on_fs_calls|]. intros _.
    apply steps_ret; apply _.
  - intros e. apply steps_ret; apply _.
Qed.

(** What [write] does after recording [wasGeneratedBy]. *)
Lemma steps_links_and_write_calls kw :
  (∀ comp fname, P (SetUrl comp fname)) → P (CallWrite kw) →
  steps (calls_extended P)
    (w ← get_self; link_data_fnames (data_fnames (cldf_spec w));; cldf_write_ E kw).
Proof.
  intros HU HW.
  apply steps_bind; [apply _|apply steps_get_self; apply _|]. intros w.
  apply steps_bind; [apply _|by apply steps_link_calls|]. intros _.
  by apply steps_cldf_write_calls.
Qed.

Lemma steps_write_after_freeze_calls reqs kw :
  P (AddProvenance "wasGeneratedBy" reqs) →
  (∀ comp fname, P (SetUrl comp fname)) → P (CallWrite kw) →
  steps (calls_extended P) (write_after_freeze E reqs kw).
Proof.
  intros HG HU HW. unfold write_after_freeze.
  apply steps_bind; [apply _|by apply steps_cldf_call|]. intros _.
  by apply steps_links_and_write_calls.
Qed.

End Calls.

(** *** Files under [write] *)



(** The calls of a whole [write], whatever its outcome: those before the
    requirements, then calls that are not [wasDerivedFrom] records. *)
Lemma write_calls kw (s : State) :
  calls_extended (λ c, ¬ is_wasDerivedFrom c)
    (state_before_freeze (self s) (fs s)) (CLDFWriter_write E kw s).2.
Proof.
  destruct s as [w fs0]. cbn [self fs].
  rewrite write_before_freeze.
  destruct ((version ← python_version E;
             reqs ← freeze_requirements E [python_entry version];
             write_after_freeze E reqs kw) (state_before_freeze w fs0))
    as [r s'] eqn:Hrun.
  revert Hrun. apply steps_bind; [apply _|apply steps_python_version_calls|].
  intros v. apply steps_bind; [apply _|apply steps_freeze_calls|].
  intros reqs. apply steps_write_after_freeze_calls; cbn; tauto.
Qed.

(** C5. In [write], the list of sources is the repository record of the
    dataset, if there is one, followed by the provenance records of
    exactly those values of the arguments that are [Catalog] instances;
    the handle receives it as [wasDerivedFrom] if and only if it is not
    empty, and receives no other [wasDerivedFrom]. *)
Theorem write_wasDerivedFrom kw (s : State) :
  ∃ new,
    calls (cldf (self (CLDFWriter_write E kw s).2)) = calls (cldf (self s)) ++ new ∧
    ∀ l, AddProvenance "wasDerivedFrom" l ∈ new ↔
         l = repo_records (dataset (self s)) ++ catalog_records (args (self s)) ∧
         l ≠ [].
Proof.
  destruct (write_calls kw s) as (new & Hself & Hnew).
  exists (calls_before_freeze (self s) ++ new). rewrite Hself.
  cbn [state_before_freeze self set_cldf cldf calls].
  split; [by rewrite <- app_assoc|].
  intros l. rewrite elem_of_app. unfold calls_before_freeze.
  rewrite Forall_forall in Hnew.
  set (srcs := repo_records (dataset (self s)) ++ catalog_records (args (self s))).
  split.
  - intros [Hin|Hin].
    + apply elem_of_cons in Hin as [[=]|Hin].
      destruct srcs as [|j srcs]; [by apply elem_of_nil in Hin|].
      apply list_elem_of_singleton in Hin as [= ->]. done.
    + by apply Hnew in Hin.
  - intros [-> Hne]. left. apply elem_of_cons. right.
    destruct srcs as [|j srcs]; [done|]. by apply list_elem_of_singleton.
Qed.



(** The calls of [write] from the requirements on: [wasGeneratedBy], once,
    then the links and the library's write. *)
Lemma write_after_freeze_calls reqs kw (s : State) :
  ∃ new, calls (cldf (self (write_after_freeze E reqs kw s).2))
         = calls (cldf (self s)) ++ AddProvenance "wasGeneratedBy" reqs :: new ∧
         Forall (λ c, ¬ is_wasGeneratedBy c) new.
Proof.
  unfold write_after_freeze. rewrite bind_run. cbn [cldf_call_].
  match goal with
  | |- context [(?m ≫= ?k) ?s1] =>
      destruct ((m ≫= k) s1) as [r s'] eqn:Hrun;
      assert (Hsteps : steps (calls_extended (λ c, ¬ is_wasGeneratedBy c)) (m ≫= k))
        by (apply steps_links_and_write_calls; cbn; tauto);
      destruct (Hsteps _ _ _ Hrun) as (new & Hself & Hnew)
  end.
  exists new. split; [|done]. cbn [snd]. rewrite Hself. cbn.
  by rewrite <- app_assoc.
Qed.

Lemma link_data_fnames_returns items (s : State) :
  Forall (λ cf, cf.1 ∈ tables (cldf (self s))) items →
  ∃ s', link_data_fnames items s = (Return (), s') ∧
        tables (cldf (self s')) = tables (cldf (self s)).
Proof.
  revert s. induction items as [|[comp fname] items IH]; intros s Hall; cbn.
  - eauto.
  - apply Forall_cons in Hall as [Hin Hall]. cbn in Hin.
    rewrite bind_run. unfold CLDFWriter_getitem at 1.
    rewrite bool_decide_eq_true_2 by done.
    rewrite bind_run. cbn [cldf_call_].
    match goal with
    | |- context [link_data_fnames items ?s1] =>
        destruct (IH s1) as (s' & -> & Ht); [exact Hall|]
    end.
    exists s'. split; [done|]. by rewrite Ht.
Qed.

(** From the requirements on, [write] returns when the file name
    overrides name tables of the handle and the library's write does. *)
Lemma write_after_freeze_returns reqs kw (s : State) :
  Forall (λ cf, cf.1 ∈ tables (cldf (self s))) (data_fnames (cldf_spec (self s))) →
  (∀ d (fs1 : FS), (cldf_write E d kw fs1).2 = None) →
  (write_after_freeze E reqs kw s).1 = Return ().
Proof.
  intros Hall Hwrite. unfold write_after_freeze.
  rewrite bind_run. cbn [cldf_call_]. rewrite bind_run. cbn [get_self self].
  rewrite bind_run. cbn [set_cldf cldf_spec].
  match goal with
  | |- context [link_data_fnames ?items ?s1] =>
      destruct (link_data_fnames_returns items s1) as (s' & -> & _); [exact Hall|]
  end.
  unfold cldf_write_.
  pose proof (Hwrite (cldf (self s')) (fs s')) as H.
  destruct (cldf_write E (cldf (self s')) kw (fs s')) as [files err].
  cbn in H. by subst err.
Qed.

Lemma wasGeneratedBy_not_before w l :
  AddProvenance "wasGeneratedBy" l ∉ calls_before_freeze w.
Proof.
  intros Hin. unfold calls_before_freeze in Hin.
  apply elem_of_cons in Hin as [[=]|Hin].
  destruct (repo_records (dataset w) ++ catalog_records (args w));
    [by apply elem_of_nil in Hin|].
  by apply list_elem_of_singleton in Hin as [=].
Qed.

Lemma wasGeneratedBy_once w reqs new l :
  Forall (λ c, ¬ is_wasGeneratedBy c) new →
  AddProvenance "wasGeneratedBy" l
    ∈ calls_before_freeze w ++ AddProvenance "wasGeneratedBy" reqs :: new
  ↔ l = reqs.
Proof.
  intros Hnew. rewrite Forall_forall in Hnew.
  rewrite elem_of_app, elem_of_cons. split.
  - intros [Hin|[[= ->]|Hin]]; [|done|].
    + by apply wasGeneratedBy_not_before in Hin.
    + by apply Hnew in Hin.
  - intros ->. by right; left.
Qed.


(** C6, amended. Every [write] in which [requirements.txt] can be opened
    and [pip freeze] is started, whatever its exit status, gives the
    handle exactly one [wasGeneratedBy] list; its first entry has
    [dc:title] ["python"] and as [dc:description] the first
    whitespace-delimited token of [sys.version], and it is followed by the
    packages entry exactly when the command exited with status zero. *)
Theorem write_wasGeneratedBy kw w (fs0 : FS) v rest rc out :
  str_split_ws (sys_version E) = v :: rest →
  is_dir fs0 (dir w) = true →
  is_dir fs0 (requirements_txt w) = false →
  pip_freeze E = Exited rc out →
  ∃ new,
    calls (cldf (self (CLDFWriter_write E kw {| self := w; fs := fs0 |}).2))
    = calls (cldf w) ++ new ∧
    ∀ l, AddProvenance "wasGeneratedBy" l ∈ new ↔
         l = JObj [("dc:title", JStr "python"); ("dc:description", JStr v)]
             :: (if (rc =? 0)%Z then [packages_entry] else []).
Proof.
  intros Hv Hdir Hreq Hpip. rewrite (write_run kw w fs0 v rest) by done.
  rewrite Hpip.
  match goal with
  | |- context [write_after_freeze E ?reqs kw ?s1] =>
      destruct (write_after_freeze_calls reqs kw s1) as (new & -> & Hnew)
  end.
  cbn [state_before_freeze self set_cldf cldf calls].
  eexists. split; [by rewrite <- app_assoc|].
  intros l. rewrite wasGeneratedBy_once by done.
  unfold python_entry. by destruct (rc =? 0)%Z.
Qed.

(** C1, amended. When [pip freeze] runs and exits with a non-zero status,
    the [CalledProcessError] is caught and ignored: [write] goes on as it
    does after a successful run, except that the [wasGeneratedBy] list it
    records has the python entry only, without a [python-packages] entry,
    and it returns whenever the remaining steps, the file name overrides
    and the library's write, do. *)
Theorem write_pip_failure kw w (fs0 : FS) v rest rc out :
  str_split_ws (sys_version E) = v :: rest →
  is_dir fs0 (dir w) = true →
  is_dir fs0 (requirements_txt w) = false →
  pip_freeze E = Exited rc out →
  rc ≠ 0%Z →
  CLDFWriter_write E kw {| self := w; fs := fs0 |}
  = write_after_freeze E [python_entry v] kw
      (state_before_freeze w (<[requirements_txt w := File out]> fs0)) ∧
  (∃ new,
     calls (cldf (self (CLDFWriter_write E kw {| self := w; fs := fs0 |}).2))
     = calls (cldf w) ++ new ∧
     ∀ l, AddProvenance "wasGeneratedBy" l ∈ new ↔ l = [python_entry v]) ∧
  (Forall (λ cf, cf.1 ∈ tables (cldf w)) (data_fnames (cldf_spec w)) →
   (∀ d (fs1 : FS), (cldf_write E d kw fs1).2 = None) →
   (CLDFWriter_write E kw {| self := w; fs := fs0 |}).1 = Return ()).
Proof.
  intros Hv Hdir Hreq Hpip Hrc.
  assert (Hrun : CLDFWriter_write E kw {| self := w; fs := fs0 |}
            = write_after_freeze E [python_entry v] kw
                (state_before_freeze w (<[requirements_txt w := File out]> fs0))).
  { rewrite (write_run kw w fs0 v rest) by done. rewrite Hpip.
    apply Z.eqb_neq in Hrc. by rewrite Hrc. }
  split; [exact Hrun|]. split.
  - rewrite Hrun.
    match goal with
    | |- context [write_after_freeze E ?reqs kw ?s1] =>
        destruct (write_after_freeze_calls reqs kw s1) as (new & -> & Hnew)
    end.
    cbn [state_before_freeze self set_cldf cldf calls].
    eexists. split; [by rewrite <- app_assoc|].
    intros l. by rewrite wasGeneratedBy_once.
  - intros Hall Hwrite. rewrite Hrun. by apply write_after_freeze_returns.
Qed.

(** C4, amended. Leaving the scope of a writer, normally or by an
    exception, calls [write] with the objects accumulated so far as
    keyword arguments, in the state the body left: unless a table is
    keyed ["self"], which makes the call itself a [TypeError], [write]
    runs on exactly those objects.  [__exit__] never suppresses an
    exception of the body: when [write] returns, the outcome of the scope
    is the outcome of its body, so an exception raised in the body reaches
    the caller after the write; when the call or [write] itself raises,
    that exception is the one that reaches the caller. *)
Theorem with_CLDFWriter_writes_on_exit (body : M State unit) (s0 : State) :
  with_CLDFWriter E body s0
  = if bool_decide ("self" ∈ (objects (self (body s0).2)).*1)
    then (Raise {| exc := TypeError;
                   exc_msg := "write() got multiple values for argument 'self'" |},
          (body s0).2)
    else (match (CLDFWriter_write E (objects (self (body s0).2)) (body s0).2).1 with
          | Raise e' => Raise e'
          | Return _ => (body s0).1
          end,
          (CLDFWriter_write E (objects (self (body s0).2)) (body s0).2).2).
Proof.
  unfold with_CLDFWriter, with_, CLDFWriter_enter, CLDFWriter_exit.
  rewrite ret_run. destruct (body s0) as [[[]|e] s1]; cbn [fst snd];
    rewrite bind_run; cbn [get_self]; rewrite bind_run;
    unfold CLDFWriter_write_kwargs; case_bool_decide; try reflexivity;
    by destruct (CLDFWriter_write E (objects (self s1)) s1) as [[[]|e'] s2].
Qed.

End WriteProperties.

(** ** The properties on the concrete environment *)

(** The concrete writer is the one the constructor builds. *)
Lemma demo_writer_constructed :
  (CLDFWriter_init (demo_env pip_ok) (PathStr "out") None (Some demo_args) None demo_fs).1
  = Return demo_writer.
Proof. vm_compute. reflexivity. Qed.

(** A whole [write] when [pip freeze] succeeds: of the two argument
    values only the catalog is a source, and both [wasGeneratedBy] entries
    are recorded. *)
Example write_demo_calls :
  CLDFWriter_write (demo_env pip_ok) [] demo_state
  = (Return (), (CLDFWriter_write (demo_env pip_ok) [] demo_state).2) ∧
  calls (cldf (self (CLDFWriter_write (demo_env pip_ok) [] demo_state).2))
  = [SetProperty "rdf:type" "http://www.w3.org/ns/dcat#Distribution";
     AddProvenance "wasDerivedFrom" [JObj [("dc:title", JStr "glottolog")]];
     AddProvenance "wasGeneratedBy"
       [JObj [("dc:title", JStr "python"); ("dc:description", JStr "3.7.3")];
        JObj [("dc:title", JStr "python-packages");
              ("dc:relation", JStr "requirements.txt")]];
     CallWrite []].
Proof.
  split; [|vm_compute; reflexivity].
  assert (H : (CLDFWriter_write (demo_env pip_ok) [] demo_state).1 = Return ())
    by (vm_compute; reflexivity).
  rewrite <- H. apply surjective_pairing.
Qed.

(** C1, as stated, fails when [pip] is not installed: [write] raises
    [FileNotFoundError] instead of completing. *)
Lemma write_pip_missing_raises :
  pip_freeze (demo_env pip_missing)
  = NotLaunched {| exc := FileNotFoundError;
                   exc_msg := "[Errno 2] No such file or directory: 'pip'" |} ∧
  (CLDFWriter_write (demo_env pip_missing) [] demo_state).1
  = Raise {| exc := FileNotFoundError;
             exc_msg := "[Errno 2] No such file or directory: 'pip'" |} ∧
  (CLDFWriter_write (demo_env pip_missing) [] demo_state).1 ≠ Return ().
Proof.
  split; [reflexivity|].
  assert (H : (CLDFWriter_write (demo_env pip_missing) [] demo_state).1
              = Raise {| exc := FileNotFoundError;
                         exc_msg := "[Errno 2] No such file or directory: 'pip'" |})
    by (vm_compute; reflexivity).
  split; [exact H|]. rewrite H. discriminate.
Qed.

(** C6, as stated, fails when [pip] is not installed: the handle receives
    no [wasGeneratedBy] at all. *)
Lemma write_pip_missing_no_wasGeneratedBy :
  calls (cldf (self (CLDFWriter_write (demo_env pip_missing) [] demo_state).2))
  = [SetProperty "rdf:type" "http://www.w3.org/ns/dcat#Distribution";
     AddProvenance "wasDerivedFrom" [JObj [("dc:title", JStr "glottolog")]]].
Proof. vm_compute. reflexivity. Qed.

(** C4, as stated, fails when [write] raises on the way out: the body's
    [ValueError] is replaced by the [KeyError] of the write. *)
Lemma with_CLDFWriter_exception_replaced :
  (failing_body {| self := demo_writer_lang; fs := demo_out_fs |}).1
  = Raise {| exc := ValueError; exc_msg := "bad row" |} ∧
  (with_CLDFWriter (demo_env pip_ok) failing_body
     {| self := demo_writer_lang; fs := demo_out_fs |}).1
  = Raise {| exc := KeyError; exc_msg := "LanguageTable" |}.
Proof. split; [reflexivity|]. vm_compute. reflexivity. Qed.

(** A table keyed ["self"]: the call in [__exit__] raises [TypeError] and
    the write does not run, the handle has received no call. *)
Example with_CLDFWriter_self_table :
  (with_CLDFWriter (demo_env pip_ok) self_table_body demo_state).1
  = Raise {| exc := TypeError;
             exc_msg := "write() got multiple values for argument 'self'" |} ∧
  calls (cldf (self (with_CLDFWriter (demo_env pip_ok) self_table_body demo_state).2))
  = [].
Proof. split; vm_compute; reflexivity. Qed.


Lemma CLDFWriter_init_outdir_witness :
  resolves_to (demo_env pip_ok) None demo_fs (cldf_spec demo_writer) ∧
  Path_exists demo_fs (pathlib_Path (PathStr "out")) = false ∧
  is_dir demo_fs (Path_parent (pathlib_Path (PathStr "out"))) = true ∧
  (CLDFWriter_init (demo_env pip_ok) (PathStr "out") None (Some demo_args) None demo_fs).1
  = Return demo_writer ∧
  CLDFWriter_init (demo_env pip_ok) (PathStr "out") None (Some demo_args) None demo_fs
  = CLDFWriter_init_after_outdir (demo_env pip_ok) (pathlib_Path (PathStr "out"))
      (cldf_spec demo_writer) (Some demo_args) None
      (<[pathlib_Path (PathStr "out") := Dir]> demo_fs) ∧
  is_dir (CLDFWriter_init (demo_env pip_ok) (PathStr "out") None (Some demo_args) None
            demo_fs).2 (pathlib_Path (PathStr "out")) = true ∧
  ∃ e, exc e = FileNotFoundError ∧ is_OSError e = true ∧
       CLDFWriter_init (demo_env pip_ok) (PathStr "a/b") None None None demo_fs
       = (Raise e, demo_fs).
Proof.
  assert (Hres : resolves_to (demo_env pip_ok) None demo_fs (cldf_spec demo_writer)).
  { unfold resolves_to. generalize demo_fs. intros fs. vm_compute. reflexivity. }
  assert (Hex : Path_exists demo_fs (pathlib_Path (PathStr "out")) = false)
    by (vm_compute; reflexivity).
  assert (Hpar : is_dir demo_fs (Path_parent (pathlib_Path (PathStr "out"))) = true)
    by (vm_compute; reflexivity).
  split; [exact Hres|]. split; [exact Hex|]. split; [exact Hpar|].
  split; [exact demo_writer_constructed|].
  destruct (proj1 (proj2 (CLDFWriter_init_outdir (demo_env pip_ok) (PathStr "out")
                            None (Some demo_args) None demo_fs _ Hres)) Hex Hpar)
    as (_ & Hrun & Hdir).
  split; [exact Hrun|]. split; [exact Hdir|].
  apply (proj1 (proj2 (proj2 (CLDFWriter_init_outdir (demo_env pip_ok) (PathStr "a/b")
                                None None None demo_fs _ Hres))));
    vm_compute; reflexivity.
Defined.

Lemma CLDFWriter_default_module_Generic_witness :
  CLDFWriter_init (demo_env pip_ok) (PathStr "out") None (Some demo_args) None demo_fs
  = (Return demo_writer,
     (CLDFWriter_init (demo_env pip_ok) (PathStr "out") None (Some demo_args) None
        demo_fs).2) ∧
  module (cldf_spec demo_writer) = "Generic" ∧
  metadata_fname (cldf_spec demo_writer) = "Generic-metadata.json" ∧
  ∃ m, m ∈ get_modules (demo_env pip_ok) ∧ id m = "Generic" ∧
       CLDFSpec_cls (demo_env pip_ok) (cldf_spec demo_writer) = Some (cls m) ∧
       from_metadata (demo_env pip_ok) (cls m)
         (Path_joinpath (pathlib_Path (PathStr "out")) "Generic-metadata.json")
         (CLDFWriter_init (demo_env pip_ok) (PathStr "out") None (Some demo_args) None
            demo_fs).2
       = Return (cldf demo_writer).
Proof.
  assert (H : CLDFWriter_init (demo_env pip_ok) (PathStr "out") None (Some demo_args)
                None demo_fs
              = (Return demo_writer,
                 (CLDFWriter_init (demo_env pip_ok) (PathStr "out") None (Some demo_args)
                    None demo_fs).2)).
  { rewrite <- demo_writer_constructed. apply surjective_pairing. }
  split; [exact H|].
  exact (proj2 (proj2 (CLDFWriter_default_module_Generic (demo_env pip_ok) _ _ _ _ _ _ H))).
Defined.


Lemma write_wasGeneratedBy_witness :
  str_split_ws (sys_version (demo_env pip_ok))
  = "3.7.3" :: ["(default,"; "Apr"; "3"; "2019,"; "19:16:38)"; "[GCC"; "8.0.1]"] ∧
  is_dir demo_out_fs (dir demo_writer) = true ∧
  is_dir demo_out_fs (requirements_txt demo_writer) = false ∧
  pip_freeze (demo_env pip_ok) = Exited 0 "attrs==19.1.0" ∧
  ∃ new,
    calls (cldf (self (CLDFWriter_write (demo_env pip_ok) []
                         {| self := demo_writer; fs := demo_out_fs |}).2))
    = calls (cldf demo_writer) ++ new ∧
    ∀ l, AddProvenance "wasGeneratedBy" l ∈ new ↔
         l = JObj [("dc:title", JStr "python"); ("dc:description", JStr "3.7.3")]
             :: (if (0 =? 0)%Z then [packages_entry] else []).
Proof.
  assert (Hv : str_split_ws (sys_version (demo_env pip_ok))
               = "3.7.3" :: ["(default,"; "Apr"; "3"; "2019,"; "19:16:38)"; "[GCC"; "8.0.1]"])
    by (vm_compute; reflexivity).
  assert (Hdir : is_dir demo_out_fs (dir demo_writer) = true)
    by (vm_compute; reflexivity).
  assert (Hreq : is_dir demo_out_fs (requirements_txt demo_writer) = false)
    by (vm_compute; reflexivity).
  split; [exact Hv|]. split; [exact Hdir|]. split; [exact Hreq|].
  split; [reflexivity|].
  exact (write_wasGeneratedBy (demo_env pip_ok) [] demo_writer demo_out_fs _ _ 0%Z _
           Hv Hdir Hreq eq_refl).
Defined.

Lemma write_pip_failure_witness :
  str_split_ws (sys_version (demo_env pip_exit_1))
  = "3.7.3" :: ["(default,"; "Apr"; "3"; "2019,"; "19:16:38)"; "[GCC"; "8.0.1]"] ∧
  is_dir demo_out_fs (dir demo_writer) = true ∧
  is_dir demo_out_fs (requirements_txt demo_writer) = false ∧
  pip_freeze (demo_env pip_exit_1) = Exited 1 "" ∧
  1%Z ≠ 0%Z ∧
  (CLDFWriter_write (demo_env pip_exit_1) [] {| self := demo_writer; fs := demo_out_fs |}).1
  = Return () ∧
  ∃ new,
    calls (cldf (self (CLDFWriter_write (demo_env pip_exit_1) []
                         {| self := demo_writer; fs := demo_out_fs |}).2))
    = calls (cldf demo_writer) ++ new ∧
    ∀ l, AddProvenance "wasGeneratedBy" l ∈ new ↔ l = [python_entry "3.7.3"].
Proof.
  assert (Hv : str_split_ws (sys_version (demo_env pip_exit_1))
               = "3.7.3" :: ["(default,"; "Apr"; "3"; "2019,"; "19:16:38)"; "[GCC"; "8.0.1]"])
    by (vm_compute; reflexivity).
  assert (Hdir : is_dir demo_out_fs (dir demo_writer) = true)
    by (vm_compute; reflexivity).
  assert (Hreq : is_dir demo_out_fs (requirements_txt demo_writer) = false)
    by (vm_compute; reflexivity).
  assert (Hrc : 1%Z ≠ 0%Z) by discriminate.
  split; [exact Hv|]. split; [exact Hdir|]. split; [exact Hreq|].
  split; [reflexivity|]. split; [exact Hrc|].
  destruct (write_pip_failure (demo_env pip_exit_1) [] demo_writer demo_out_fs
              _ _ 1%Z "" Hv Hdir Hreq eq_refl Hrc) as (_ & Hcalls & Hret).
  split; [|exact Hcalls].
  apply Hret; [constructor|reflexivity].
Defined.

(** * Further properties of the module *)

(** ** CLDFSpec *)

Section SpecFurther.
Variable E : Env.

Lemma module_known_find name :
  name ∈ map id (get_modules E) →
  ∃ m, List.find (λ m, String.eqb (id m) name) (get_modules E) = Some m.
Proof.
  induction (get_modules E) as [|m ms IH]; cbn.
  - intros H. by apply elem_of_nil in H.
  - intros [->|H]%elem_of_cons.
    + rewrite String.eqb_refl. eauto.
    + destruct (String.eqb (id m) name); eauto.
Qed.

(** X1. Constructing a [CLDFSpec] reads the file system but never changes
    it, whether the construction returns or raises; the same holds for
    [__attrs_post_init__] alone. *)
Theorem CLDFSpec_init_reads_only modarg name dmp fname dfn dfn' (fs fs1 fs2 : FS) r1 r2 :
  CLDFSpec_init E modarg dmp fname dfn fs = (r1, fs1) →
  CLDFSpec_attrs_post_init E name dmp fname dfn' fs = (r2, fs2) →
  fs1 = fs ∧ fs2 = fs.
Proof.
  intros H1 H2. split; [by eapply CLDFSpec_init_fs|].
  revert H2. unfold CLDFSpec_attrs_post_init, resolve_default_metadata_path.
  rewrite bind_run.
  destruct dmp as [a|]; [destruct (path_arg_truthy a)|]; cbn;
    try (by intros [= _ <-]).
  unfold try_except, load_metadata. rewrite bind_run.
  destruct (from_metadata E Dataset_cls (pathlib_Path a) fs); cbn;
    by intros [= _ <-].
Qed.

(** X2. The [cls] property of a constructed [CLDFSpec] is never [None]: it
    is the class of a registry entry whose id is the module of the
    spec. *)
Theorem CLDFSpec_cls_of_constructed modarg dmp fname dfn (fs fs' : FS) spec :
  CLDFSpec_init E modarg dmp fname dfn fs = (Return spec, fs') →
  ∃ m, m ∈ get_modules E ∧ id m = module spec ∧
       CLDFSpec_cls E spec = Some (cls m).
Proof.
  intros H. apply CLDFSpec_init_inv in H as [Hin H].
  apply CLDFSpec_attrs_post_init_inv in H as (p & _ & ->).
  destruct (module_known_find _ Hin) as [m Hfind].
  exists m. unfold CLDFSpec_cls. cbn [module]. rewrite Hfind.
  apply List.find_some in Hfind as [Hm Heq].
  split; [by apply list_elem_of_In|].
  split; [by apply String.eqb_eq|done].
Qed.

Lemma find_unique_id (ms : list Module) name m m0 :
  NoDup (map id ms) →
  List.find (λ m, String.eqb (id m) name) ms = Some m →
  m0 ∈ ms → id m0 = name → m = m0.
Proof.
  induction ms as [|m1 ms IH]; cbn; [intros _ [=]|].
  intros [Hnotin Hnd]%NoDup_cons Hfind Hin Hid.
  destruct (String.eqb (id m1) name) eqn:Heq.
  - injection Hfind as <-. apply String.eqb_eq in Heq.
    apply elem_of_cons in Hin as [->|Hin]; [done|].
    exfalso. apply Hnotin. rewrite Heq, <- Hid.
    by apply list_elem_of_fmap_2.
  - apply elem_of_cons in Hin as [->|Hin]; [|by apply IH].
    apply String.eqb_neq in Heq. done.
Qed.

(** X3. A [CLDFSpec] constructed from a class has the name of the class as
    its module, and as [cls] the class the registry has under that name.
    That is the class given when it is a class of the registry, entered
    under its own name, and the ids of the registry are distinct; a class
    that only bears the name of a registered one gets the registered
    class, not itself. *)
Theorem CLDFSpec_cls_round_trip c dmp fname dfn (fs fs' : FS) spec :
  CLDFSpec_init E (Some (ModuleClass c)) dmp fname dfn fs = (Return spec, fs') →
  module spec = cls_name c ∧
  (∃ m, m ∈ get_modules E ∧ id m = cls_name c ∧
        CLDFSpec_cls E spec = Some (cls m)) ∧
  (NoDup (map id (get_modules E)) →
   ∀ m0, m0 ∈ get_modules E → id m0 = cls_name c →
         CLDFSpec_cls E spec = Some c ↔ cls m0 = c).
Proof.
  intros H.
  assert (Hmod : module spec = cls_name c).
  { apply CLDFSpec_init_inv in H as [_ H].
    by apply CLDFSpec_attrs_post_init_inv in H as (p & _ & ->). }
  split; [exact Hmod|].
  apply CLDFSpec_init_inv in H as [Hin _]. cbn in Hin.
  destruct (module_known_find _ Hin) as [m Hfind].
  assert (Hcls : CLDFSpec_cls E spec = Some (cls m)).
  { unfold CLDFSpec_cls. by rewrite Hmod, Hfind. }
  split.
  - exists m. pose proof Hfind as Hf. apply List.find_some in Hf as [Hm Heq].
    split; [by apply list_elem_of_In|]. split; [by apply String.eqb_eq|done].
  - intros Hnd m0 Hm0 Hid0.
    rewrite (find_unique_id _ _ _ _ Hnd Hfind Hm0 Hid0) in Hcls.
    rewrite Hcls. split; [by intros [= ->]|by intros ->].
Qed.

(** X4. A non-empty [metadata_fname] is kept as given, and does not change
    how the rest of the spec is built: the other attributes are those of
    the spec constructed without it. *)
Theorem CLDFSpec_metadata_fname_given modarg dmp s dfn (fs fs' : FS) spec :
  str_nonempty s = true →
  CLDFSpec_init E modarg dmp (Some s) dfn fs = (Return spec, fs') →
  metadata_fname spec = s ∧
  CLDFSpec_init E modarg dmp None dfn fs
  = (Return {| module := module spec;
               default_metadata_path := default_metadata_path spec;
               metadata_fname := Path_name (default_metadata_path spec);
               data_fnames := data_fnames spec |}, fs').
Proof.
  intros Hs H. apply CLDFSpec_init_inv in H as [Hin H].
  apply CLDFSpec_attrs_post_init_inv in H as (p & Hp & ->).
  rewrite Hs. cbn. split; [done|].
  unfold CLDFSpec_init. rewrite bind_run, module_validator_known by done.
  unfold CLDFSpec_attrs_post_init. by rewrite bind_run, Hp.
Qed.

(** X5. Constructing a [CLDFSpec] returns a spec exactly when the module
    identifier is in the registry and the default metadata path, if one is
    given and true, loads as dataset metadata: an omitted path and the
    empty string are never loaded. *)
Theorem CLDFSpec_init_returns_iff modarg dmp fname dfn (fs : FS) :
  (∃ spec, CLDFSpec_init E modarg dmp fname dfn fs = (Return spec, fs)) ↔
  module_converter (default (ModuleName "Generic") modarg) ∈ map id (get_modules E) ∧
  match dmp with
  | Some a => path_arg_truthy a = true →
              ∃ d, from_metadata E Dataset_cls (pathlib_Path a) fs = Return d
  | None => True
  end.
Proof.
  split.
  - intros [spec H]. apply CLDFSpec_init_inv in H as [Hin H].
    split; [exact Hin|].
    apply CLDFSpec_attrs_post_init_inv in H as (p & Hp & _).
    destruct dmp as [a|]; [|done]. intros Ha.
    unfold resolve_default_metadata_path in Hp. rewrite Ha in Hp.
    unfold try_except, load_metadata in Hp. rewrite bind_run in Hp.
    destruct (from_metadata E Dataset_cls (pathlib_Path a) fs) as [d|e]; [eauto|].
    discriminate.
  - intros [Hin Hload]. unfold CLDFSpec_init.
    rewrite bind_run, module_validator_known by done.
    unfold CLDFSpec_attrs_post_init, resolve_default_metadata_path.
    rewrite bind_run.
    destruct dmp as [a|]; [destruct (path_arg_truthy a) eqn:Ha|]; cbn; eauto.
    destruct Hload as [d Hd]; [done|].
    unfold try_except, load_metadata. rewrite bind_run, Hd. cbn. eauto.
Qed.

End SpecFurther.

(** ** CLDFWriter: construction, further *)

Lemma ensure_outdir_inv p (fs fs1 : FS) r :
  ensure_outdir p fs = (r, fs1) →
  fs1 = fs ∨ (fs1 = <[p := Dir]> fs ∧ fs_stat fs p = None ∧ r = Return ()).
Proof.
  destruct (Path_exists fs p) eqn:Hex.
  - rewrite ensure_outdir_present by done. intros [= _ <-]. by left.
  - rewrite ensure_outdir_absent by done. unfold Path_mkdir, Path_exists in *.
    destruct (fs_stat fs p); [done|].
    destruct (fs_stat fs (Path_parent p)) as [[|c]|]; intros [= <- <-]; auto.
Qed.

Lemma Path_open_wb_frame p (fs fs1 : FS) r q :
  Path_open_wb p fs = (r, fs1) → q ≠ p → fs1 !! q = fs !! q.
Proof.
  unfold Path_open_wb. intros H Hq.
  destruct (fs_stat fs p) as [[|c]|];
    [| |destruct (fs_stat fs (Path_parent p)) as [[|c]|]];
    injection H as <- <-; by rewrite ?lookup_insert_ne.
Qed.

(** The destination [shutil.copy] writes to. *)
Lemma shutil_copy_inv src dst (fs fs' : FS) d :
  shutil_copy src dst fs = (Return d, fs') →
  d = (if is_dir fs (Path_of_str dst)
       then os_path_join dst (os_path_basename src) else dst) ∧
  ∃ c, fs_stat fs (Path_of_str src) = Some (File c) ∧
       fs' = <[Path_of_str d := File c]> fs ∧
       parts (Path_of_str d) ≠ [].
Proof.
  unfold shutil_copy.
  set (dst' := if is_dir fs (Path_of_str dst)
               then os_path_join dst (os_path_basename src) else dst).
  destruct (bool_decide (Path_of_str src = Path_of_str dst') &&
            Path_exists fs (Path_of_str src)); [intros [=]|].
  rewrite bind_run. unfold read_file.
  destruct (fs_stat fs (Path_of_str src)) as [[|c]|]; [intros [=]| |intros [=]].
  rewrite bind_run.
  destruct (Path_open_wb (Path_of_str dst') fs) as [[f|e] fs1] eqn:Hopen;
    [|intros [=]].
  apply Path_open_wb_inv in Hopen as (-> & -> & Hparts).
  rewrite bind_run. unfold file_write. rewrite ret_run. intros [= <- <-].
  split; [done|]. exists c. by rewrite insert_insert_eq.
Qed.

Lemma shutil_copy_frame src dst (fs fs' : FS) r q :
  shutil_copy src dst fs = (r, fs') →
  q ≠ Path_of_str dst →
  q ≠ Path_of_str (os_path_join dst (os_path_basename src)) →
  fs' !! q = fs !! q.
Proof.
  unfold shutil_copy. intros H Hq1 Hq2.
  set (dst' := if is_dir fs (Path_of_str dst)
               then os_path_join dst (os_path_basename src) else dst) in H.
  assert (Hq : q ≠ Path_of_str dst') by (subst dst'; by destruct (is_dir _ _)).
  destruct (bool_decide (Path_of_str src = Path_of_str dst') &&
            Path_exists fs (Path_of_str src)); [by injection H as <- <-|].
  rewrite bind_run in H. unfold read_file in H.
  destruct (fs_stat fs (Path_of_str src)) as [[|c]|];
    try (by injection H as <- <-).
  rewrite bind_run in H.
  destruct (Path_open_wb (Path_of_str dst') fs) as [[f|e] fs1] eqn:Hopen.
  - pose proof Hopen as Hinv. apply Path_open_wb_inv in Hinv as (-> & _ & _).
    rewrite bind_run in H. unfold file_write in H. rewrite ret_run in H.
    injection H as <- <-. rewrite lookup_insert_ne by done.
    eauto using Path_open_wb_frame.
  - injection H as <- <-. eauto using Path_open_wb_frame.
Qed.

Section WriterConstructionFurther.
Variable E : Env.

(** The constructor once the spec is settled. *)
Lemma CLDFWriter_init_run outdir cldf_spec args ds (fs : FS) spec :
  resolves_to E cldf_spec fs spec →
  CLDFWriter_init E outdir cldf_spec args ds fs
  = (ensure_outdir (pathlib_Path outdir);;
     shutil_copy (Path_str (default_metadata_path spec))
       (Path_str (Path_joinpath (pathlib_Path outdir) (metadata_fname spec)));;
     match CLDFSpec_cls E spec with
     | None => raise {| exc := AttributeError;
                        exc_msg := "'NoneType' object has no attribute 'from_metadata'" |}
     | Some c =>
         cldf ← load_metadata E c
                  (Path_joinpath (pathlib_Path outdir) (metadata_fname spec));
         mret {| cldf_spec := spec; objects := []; args := args;
                 dataset := ds; dir := pathlib_Path outdir; cldf := cldf |}
     end) fs.
Proof.
  intros Hres. unfold CLDFWriter_init. rewrite bind_run.
  assert (match cldf_spec with
          | Some spec => mret spec
          | None => CLDFSpec_init E None None None None
          end fs = (Return spec, fs)) as ->; [|done].
  destruct cldf_spec as [sp|]; cbn in *; by subst.
Qed.

(** X6. A writer that is constructed has copied the template: the content
    of the file at the default metadata path of its spec is the content of
    the destination, which is [outdir/metadata_fname], or a file of the
    template's base name inside it when that is a directory; the template
    was read as it was before the constructor ran, and the handle is
    loaded from [outdir/metadata_fname] after the copy. *)
Theorem CLDFWriter_init_copies_template outdir cldf_spec args ds (fs fs' : FS) spec w :
  resolves_to E cldf_spec fs spec →
  CLDFWriter_init E outdir cldf_spec args ds fs = (Return w, fs') →
  ∃ c dst cl,
    fs_stat fs (Path_of_str (Path_str (default_metadata_path spec))) = Some (File c) ∧
    fs_stat fs' (Path_of_str dst) = Some (File c) ∧
    (dst = Path_str (Path_joinpath (pathlib_Path outdir) (metadata_fname spec)) ∨
     dst = os_path_join
             (Path_str (Path_joinpath (pathlib_Path outdir) (metadata_fname spec)))
             (os_path_basename (Path_str (default_metadata_path spec)))) ∧
    CLDFSpec_cls E spec = Some cl ∧
    from_metadata E cl (Path_joinpath (pathlib_Path outdir) (metadata_fname spec)) fs'
    = Return (cldf w).
Proof.
  intros Hres Hinit.
  apply CLDFWriter_init_inv in Hinit
    as (spec' & fs1 & dst & cl & Hres' & Hdir & Hcopy & Hcls & Hload & _).
  assert (spec' = spec) as -> by (destruct cldf_spec; cbn in *; congruence).
  apply shutil_copy_inv in Hcopy as (Hdst & c & Hsrc & -> & Hparts).
  exists c, dst, cl. split; [|split; [|split; [|done]]].
  - apply ensure_outdir_inv in Hdir as [->|(-> & Hnone & _)]; [done|].
    unfold fs_stat in *.
    destruct (parts (Path_of_str (Path_str (default_metadata_path spec))));
      [done|].
    destruct (decide (pathlib_Path outdir
                      = Path_of_str (Path_str (default_metadata_path spec))))
      as [Heq|Hne].
    + rewrite <- Heq, lookup_insert_eq in Hsrc. discriminate.
    + by rewrite lookup_insert_ne in Hsrc.
  - unfold fs_stat. destruct (parts (Path_of_str dst)); [done|].
    by rewrite lookup_insert_eq.
  - rewrite Hdst. destruct (is_dir fs1 _); auto.
Qed.

(** X7. When the output directory is created but the template is not
    there, the constructor raises [FileNotFoundError] for the template and
    leaves the new, empty output directory behind. *)
Theorem CLDFWriter_init_missing_template outdir cldf_spec args ds (fs : FS) spec :
  resolves_to E cldf_spec fs spec →
  Path_exists fs (pathlib_Path outdir) = false →
  is_dir fs (Path_parent (pathlib_Path outdir)) = true →
  fs_stat fs (Path_of_str (Path_str (default_metadata_path spec))) = None →
  Path_of_str (Path_str (default_metadata_path spec)) ≠ pathlib_Path outdir →
  CLDFWriter_init E outdir cldf_spec args ds fs
  = (Raise {| exc := FileNotFoundError;
              exc_msg := Path_str (Path_of_str (Path_str (default_metadata_path spec))) |},
     <[pathlib_Path outdir := Dir]> fs).
Proof.
  intros Hres Hex Hpar Hsrc Hne.
  rewrite (CLDFWriter_init_run _ _ _ _ _ spec) by done.
  rewrite bind_run, ensure_outdir_absent by done.
  unfold Path_mkdir, Path_exists, is_dir in *.
  destruct (fs_stat fs (pathlib_Path outdir)); [done|].
  destruct (fs_stat fs (Path_parent (pathlib_Path outdir))) as [[|c]|]; try done.
  rewrite bind_run. unfold shutil_copy.
  assert (Hsrc' : fs_stat (<[pathlib_Path outdir := Dir]> fs)
                    (Path_of_str (Path_str (default_metadata_path spec))) = None).
  { unfold fs_stat in *.
    destruct (parts (Path_of_str (Path_str (default_metadata_path spec))));
      [done|]. by rewrite lookup_insert_ne. }
  unfold Path_exists. rewrite Hsrc', andb_false_r.
  rewrite bind_run. unfold read_file. by rewrite Hsrc'.
Qed.

(** X8. Whatever its outcome, the constructor changes nothing on the file
    system but the output directory and the destination of the copy. *)
Theorem CLDFWriter_init_frame outdir cldf_spec args ds (fs fs' : FS) spec r q :
  resolves_to E cldf_spec fs spec →
  CLDFWriter_init E outdir cldf_spec args ds fs = (r, fs') →
  q ≠ pathlib_Path outdir →
  q ≠ Path_of_str (Path_str (Path_joinpath (pathlib_Path outdir) (metadata_fname spec))) →
  q ≠ Path_of_str
        (os_path_join
           (Path_str (Path_joinpath (pathlib_Path outdir) (metadata_fname spec)))
           (os_path_basename (Path_str (default_metadata_path spec)))) →
  fs' !! q = fs !! q.
Proof.
  intros Hres Hinit Hq Hq1 Hq2.
  rewrite (CLDFWriter_init_run _ _ _ _ _ spec) in Hinit by done.
  rewrite bind_run in Hinit.
  destruct (ensure_outdir (pathlib_Path outdir) fs) as [r1 fs1] eqn:Hdir.
  assert (Hfs1 : fs1 !! q = fs !! q).
  { apply ensure_outdir_inv in Hdir as [->|(-> & _)]; [done|].
    by rewrite lookup_insert_ne. }
  destruct r1 as [[]|e]; [|by injection Hinit as <- <-].
  rewrite bind_run in Hinit.
  destruct (shutil_copy _ _ fs1) as [r2 fs2] eqn:Hcopy.
  assert (Hfs2 : fs2 !! q = fs1 !! q) by eauto using shutil_copy_frame.
  destruct r2 as [dst|e]; [|injection Hinit as <- <-; congruence].
  destruct (CLDFSpec_cls E spec) as [cl|]; [|injection Hinit as <- <-; congruence].
  rewrite bind_run in Hinit. unfold load_metadata in Hinit.
  destruct (from_metadata E cl _ fs2); injection Hinit as <- <-; congruence.
Qed.

End WriterConstructionFurther.

(** ** CLDFWriter: write, further *)

Lemma link_data_fnames_run w T (f : FS) items C :
  Forall (λ cf, cf.1 ∈ T) items →
  link_data_fnames items {| self := set_cldf {| tables := T; calls := C |} w; fs := f |}
  = (Return (),
     {| self := set_cldf {| tables := T; calls := C ++ link_calls items |} w; fs := f |}).
Proof.
  revert C. induction items as [|[comp fname] items IH]; intros C Hall; cbn.
  - by rewrite app_nil_r.
  - apply Forall_cons in Hall as [Hin Hall]. cbn in Hin.
    rewrite bind_run. unfold CLDFWriter_getitem at 1. cbn [self set_cldf cldf tables].
    rewrite bool_decide_eq_true_2 by done.
    rewrite bind_run. cbn [cldf_call_ self fs].
    change (set_cldf (record_call (SetUrl comp fname) (cldf (set_cldf {| tables := T; calls := C |} w)))
              (set_cldf {| tables := T; calls := C |} w))
      with (set_cldf {| tables := T; calls := C ++ [SetUrl comp fname] |} w).
    rewrite IH by done. by rewrite <- app_assoc.
Qed.

Lemma link_data_fnames_unknown w T (f : FS) known comp fname later C :
  Forall (λ cf, cf.1 ∈ T) known →
  comp ∉ T →
  link_data_fnames (known ++ (comp, fname) :: later)
    {| self := set_cldf {| tables := T; calls := C |} w; fs := f |}
  = (Raise {| exc := KeyError; exc_msg := comp |},
     {| self := set_cldf {| tables := T; calls := C ++ link_calls known |} w; fs := f |}).
Proof.
  revert C. induction known as [|[comp' fname'] known IH]; intros C Hall Hcomp; cbn.
  - rewrite bind_run. unfold CLDFWriter_getitem. cbn [self set_cldf cldf tables].
    rewrite bool_decide_eq_false_2 by done. by rewrite app_nil_r.
  - apply Forall_cons in Hall as [Hin Hall]. cbn in Hin.
    rewrite bind_run. unfold CLDFWriter_getitem at 1. cbn [self set_cldf cldf tables].
    rewrite bool_decide_eq_true_2 by done.
    rewrite bind_run. cbn [cldf_call_ self fs].
    change (set_cldf (record_call (SetUrl comp' fname') (cldf (set_cldf {| tables := T; calls := C |} w)))
              (set_cldf {| tables := T; calls := C |} w))
      with (set_cldf {| tables := T; calls := C ++ [SetUrl comp' fname'] |} w).
    rewrite IH by done. by rewrite <- app_assoc.
Qed.

Section WriteFurther.
Variable E : Env.

(** [write] from the requirements on, up to the loop over the file name
    overrides. *)
Lemma write_after_freeze_links reqs kw w T C (f : FS) :
  write_after_freeze E reqs kw
    {| self := set_cldf {| tables := T; calls := C |} w; fs := f |}
  = (link_data_fnames (data_fnames (cldf_spec w));; cldf_write_ E kw)
      {| self := set_cldf {| tables := T;
                             calls := C ++ [AddProvenance "wasGeneratedBy" reqs] |} w;
         fs := f |}.
Proof.
  unfold write_after_freeze. rewrite bind_run. cbn [cldf_call_].
  rewrite bind_run. reflexivity.
Qed.

Lemma with_CLDFWriter_state (body : M State unit) (s0 : State) :
  "self" ∉ (objects (self (body s0).2)).*1 →
  (with_CLDFWriter E body s0).2
  = (CLDFWriter_write E (objects (self (body s0).2)) (body s0).2).2.
Proof.
  intros Hself.
  unfold with_CLDFWriter, with_, CLDFWriter_enter, CLDFWriter_exit.
  rewrite ret_run. destruct (body s0) as [[[]|e] s1]; cbn [fst snd] in *;
    rewrite bind_run; cbn [get_self]; rewrite bind_run;
    unfold CLDFWriter_write_kwargs; rewrite bool_decide_eq_false_2 by done;
    by destruct (CLDFWriter_write E (objects (self s1)) s1) as [[[]|e'] s2].
Qed.

(** X9. Whatever its outcome, [write] changes nothing of the writer but
    the calls its handle has received: the spec, the objects, the
    arguments, the dataset, the directory and the tables of the handle are
    as before. *)
Theorem write_keeps_writer kw (s : State) :
  cldf_spec (self (CLDFWriter_write E kw s).2) = cldf_spec (self s) ∧
  objects (self (CLDFWriter_write E kw s).2) = objects (self s) ∧
  args (self (CLDFWriter_write E kw s).2) = args (self s) ∧
  dataset (self (CLDFWriter_write E kw s).2) = dataset (self s) ∧
  dir (self (CLDFWriter_write E kw s).2) = dir (self s) ∧
  tables (cldf (self (CLDFWriter_write E kw s).2)) = tables (cldf (self s)).
Proof.
  destruct (write_calls E kw s) as (new & Hself & _).
  rewrite Hself. cbn. done.
Qed.

(** X10. Every [write], whatever becomes of it, first sets the [rdf:type]
    of the handle to the DCAT distribution IRI. *)
Theorem write_stamps_rdf_type kw (s : State) :
  ∃ new,
    calls (cldf (self (CLDFWriter_write E kw s).2))
    = calls (cldf (self s))
      ++ SetProperty "rdf:type" "http://www.w3.org/ns/dcat#Distribution" :: new.
Proof.
  destruct (write_calls E kw s) as (new & Hself & _).
  rewrite Hself. cbn [state_before_freeze self set_cldf cldf calls].
  unfold calls_before_freeze. rewrite <- app_assoc. cbn. eauto.
Qed.

(** X11. When the requirements file can be opened, [pip freeze] is started
    and every file name override names a table of the handle, [write]
    calls the library's write exactly once and last, with the keyword
    arguments it was given, on the handle that has received the
    provenance and every override in order, and on the file system that
    has the requirements; the outcome and the files written are the
    library's. *)
Theorem write_complete kw w (fs0 : FS) v rest rc out :
  str_split_ws (sys_version E) = v :: rest →
  is_dir fs0 (dir w) = true →
  is_dir fs0 (requirements_txt w) = false →
  pip_freeze E = Exited rc out →
  Forall (λ cf, cf.1 ∈ tables (cldf w)) (data_fnames (cldf_spec w)) →
  ∃ d,
    d = {| tables := tables (cldf w);
           calls := calls (cldf w) ++ calls_before_freeze w ++
                    AddProvenance "wasGeneratedBy"
                      (python_entry v :: if (rc =? 0)%Z then [packages_entry] else [])
                    :: link_calls (data_fnames (cldf_spec w)) |} ∧
    CLDFWriter_write E kw {| self := w; fs := fs0 |}
    = (match (cldf_write E d kw (<[requirements_txt w := File out]> fs0)).2 with
       | None => Return ()
       | Some e => Raise e
       end,
       {| self := set_cldf (record_call (CallWrite kw) d) w;
          fs := write_files (cldf_write E d kw (<[requirements_txt w := File out]> fs0)).1
                  (<[requirements_txt w := File out]> fs0) |}).
Proof.
  intros Hv Hdir Hreq Hpip Hall. eexists. split; [reflexivity|].
  rewrite (write_run E kw w fs0 v rest) by done. rewrite Hpip.
  unfold state_before_freeze. rewrite write_after_freeze_links, bind_run.
  rewrite link_data_fnames_run by done.
  unfold cldf_write_. cbn [self fs set_cldf cldf].
  replace (if (rc =? 0)%Z then [python_entry v; packages_entry] else [python_entry v])
    with (python_entry v :: if (rc =? 0)%Z then [packages_entry] else [])
    by (destruct (rc =? 0)%Z; reflexivity).
  rewrite <- !app_assoc. cbn [app].
  match goal with
  | |- context [cldf_write E ?d kw ?f] => destruct (cldf_write E d kw f) as [files [e|]]
  end; cbn [fst snd]; unfold set_cldf, record_call;
    cbn [cldf_spec objects args dataset dir cldf tables calls]; reflexivity.
Qed.

(** X12. A file name override for a table the handle does not have makes
    [write] raise [KeyError] for it: the overrides before it have been
    applied, the library's write is not called, and on the file system
    only the requirements have been written. *)
Theorem write_unknown_table kw w (fs0 : FS) v rest rc out known comp fname later :
  str_split_ws (sys_version E) = v :: rest →
  is_dir fs0 (dir w) = true →
  is_dir fs0 (requirements_txt w) = false →
  pip_freeze E = Exited rc out →
  data_fnames (cldf_spec w) = known ++ (comp, fname) :: later →
  Forall (λ cf, cf.1 ∈ tables (cldf w)) known →
  comp ∉ tables (cldf w) →
  CLDFWriter_write E kw {| self := w; fs := fs0 |}
  = (Raise {| exc := KeyError; exc_msg := comp |},
     {| self := set_cldf
                  {| tables := tables (cldf w);
                     calls := calls (cldf w) ++ calls_before_freeze w ++
                              AddProvenance "wasGeneratedBy"
                                (python_entry v ::
                                 if (rc =? 0)%Z then [packages_entry] else [])
                              :: link_calls known |} w;
        fs := <[requirements_txt w := File out]> fs0 |}).
Proof.
  intros Hv Hdir Hreq Hpip Hfn Hall Hcomp.
  rewrite (write_run E kw w fs0 v rest) by done. rewrite Hpip.
  unfold state_before_freeze. rewrite write_after_freeze_links, bind_run, Hfn.
  rewrite link_data_fnames_unknown by done.
  replace (if (rc =? 0)%Z then [python_entry v; packages_entry] else [python_entry v])
    with (python_entry v :: if (rc =? 0)%Z then [packages_entry] else [])
    by (destruct (rc =? 0)%Z; reflexivity).
  rewrite <- !app_assoc. reflexivity.
Qed.

(** X13. When the output directory is no longer there, [write] raises
    [FileNotFoundError] for the requirements file: [pip freeze] is not
    run, the handle has received the [rdf:type] and the sources only, and
    the file system is as it was. *)
Theorem write_missing_outdir kw w (fs0 : FS) v rest :
  str_split_ws (sys_version E) = v :: rest →
  fs_stat fs0 (dir w) = None →
  fs_stat fs0 (requirements_txt w) = None →
  CLDFWriter_write E kw {| self := w; fs := fs0 |}
  = (Raise {| exc := FileNotFoundError; exc_msg := Path_str (requirements_txt w) |},
     state_before_freeze w fs0).
Proof.
  intros Hv Hdir Hreq. rewrite write_before_freeze, bind_run.
  unfold python_version. rewrite Hv, ret_run, bind_run.
  unfold freeze_requirements, try_except.
  rewrite bind_run. cbn [get_self]. rewrite bind_run.
  unfold on_fs at 1. cbn [state_before_freeze self fs set_cldf dir].
  fold (requirements_txt w). unfold Path_open_wb. rewrite Hreq.
  unfold requirements_txt at 1. rewrite Path_parent_joinpath by reflexivity.
  replace {| root := root (dir w); parts := parts (dir w) |} with (dir w)
    by (by destruct (dir w)).
  rewrite Hdir. reflexivity.
Qed.

(** X14. When no table is keyed ["self"] and the write on leaving a scope
    gets as far as the library, the last call on the handle is the
    library's write with exactly the objects the body has accumulated,
    whether the body returned or raised. *)
Theorem scope_rows_written (body : M State unit) (s0 : State) v rest rc out :
  "self" ∉ (objects (self (body s0).2)).*1 →
  str_split_ws (sys_version E) = v :: rest →
  is_dir (fs (body s0).2) (dir (self (body s0).2)) = true →
  is_dir (fs (body s0).2) (requirements_txt (self (body s0).2)) = false →
  pip_freeze E = Exited rc out →
  Forall (λ cf, cf.1 ∈ tables (cldf (self (body s0).2)))
    (data_fnames (cldf_spec (self (body s0).2))) →
  ∃ before,
    calls (cldf (self (with_CLDFWriter E body s0).2))
    = calls (cldf (self (body s0).2)) ++ before
      ++ [CallWrite (objects (self (body s0).2))] ∧
    Forall (λ c, ∀ kw, c ≠ CallWrite kw) before.
Proof.
  intros Hself Hv Hdir Hreq Hpip Hall. rewrite with_CLDFWriter_state by done.
  destruct (body s0) as [r [w fs1]]. cbn [snd self fs] in *.
  rewrite (write_run E _ w fs1 v rest) by done. rewrite Hpip.
  unfold state_before_freeze. rewrite write_after_freeze_links, bind_run.
  rewrite link_data_fnames_run by done.
  unfold cldf_write_. cbn [self fs set_cldf cldf].
  exists (calls_before_freeze w ++
          AddProvenance "wasGeneratedBy"
            (if (rc =? 0)%Z then [python_entry v; packages_entry] else [python_entry v])
          :: link_calls (data_fnames (cldf_spec w))).
  split.
  - match goal with
    | |- context [cldf_write E ?d ?kw ?f] =>
        destruct (cldf_write E d kw f) as [files [e|]]
    end; cbn [snd self set_cldf cldf record_call calls];
      rewrite <- !app_assoc; reflexivity.
  - apply Forall_app. split.
    + unfold calls_before_freeze.
      destruct (repo_records (dataset w) ++ catalog_records (args w));
        repeat constructor; by intros ?.
    + apply Forall_cons. split; [by intros ?|].
      unfold link_calls. apply Forall_fmap, Forall_forall. by intros ? ? ?.
Qed.

End WriteFurther.

(** ** The further properties on the concrete environment *)

Lemma CLDFSpec_init_reads_only_witness :
  CLDFSpec_init (demo_env pip_ok) (Some (ModuleName "Wordlist"))
    (Some (PathStr "notes.txt")) None None demo_fs_bad
  = ((CLDFSpec_init (demo_env pip_ok) (Some (ModuleName "Wordlist"))
        (Some (PathStr "notes.txt")) None None demo_fs_bad).1,
     (CLDFSpec_init (demo_env pip_ok) (Some (ModuleName "Wordlist"))
        (Some (PathStr "notes.txt")) None None demo_fs_bad).2) ∧
  CLDFSpec_attrs_post_init (demo_env pip_ok) "Generic" (Some (PathStr "notes.txt"))
    None [] demo_fs_bad
  = ((CLDFSpec_attrs_post_init (demo_env pip_ok) "Generic" (Some (PathStr "notes.txt"))
        None [] demo_fs_bad).1,
     (CLDFSpec_attrs_post_init (demo_env pip_ok) "Generic" (Some (PathStr "notes.txt"))
        None [] demo_fs_bad).2) ∧
  (CLDFSpec_init (demo_env pip_ok) (Some (ModuleName "Wordlist"))
     (Some (PathStr "notes.txt")) None None demo_fs_bad).2 = demo_fs_bad ∧
  (CLDFSpec_attrs_post_init (demo_env pip_ok) "Generic" (Some (PathStr "notes.txt"))
     None [] demo_fs_bad).2 = demo_fs_bad.
Proof.
  split; [apply surjective_pairing|]. split; [apply surjective_pairing|].
  exact (CLDFSpec_init_reads_only (demo_env pip_ok) _ _ _ _ _ _ _ _ _ _ _
           (surjective_pairing _) (surjective_pairing _)).
Defined.

Lemma CLDFSpec_cls_of_constructed_witness :
  CLDFSpec_init (demo_env pip_ok) (Some (ModuleName "Wordlist")) None None None demo_fs
  = (Return demo_spec_wordlist, demo_fs) ∧
  ∃ m, m ∈ get_modules (demo_env pip_ok) ∧ id m = module demo_spec_wordlist ∧
       CLDFSpec_cls (demo_env pip_ok) demo_spec_wordlist = Some (cls m).
Proof.
  assert (H : CLDFSpec_init (demo_env pip_ok) (Some (ModuleName "Wordlist")) None None
                None demo_fs = (Return demo_spec_wordlist, demo_fs)).
  { generalize demo_fs. intros fs. vm_compute. reflexivity. }
  split; [exact H|].
  exact (CLDFSpec_cls_of_constructed (demo_env pip_ok) _ _ _ _ _ _ _ H).
Defined.

Lemma CLDFSpec_cls_round_trip_witness :
  CLDFSpec_init (demo_env pip_ok)
    (Some (ModuleClass {| cls_name := "Wordlist"; cls_ident := 2 |})) None None None demo_fs
  = (Return demo_spec_wordlist, demo_fs) ∧
  CLDFSpec_init (demo_env pip_ok) (Some (ModuleClass my_wordlist)) None None None demo_fs
  = (Return demo_spec_wordlist, demo_fs) ∧
  NoDup (map id (get_modules (demo_env pip_ok))) ∧
  module demo_spec_wordlist = cls_name my_wordlist ∧
  CLDFSpec_cls (demo_env pip_ok) demo_spec_wordlist
  = Some {| cls_name := "Wordlist"; cls_ident := 2 |} ∧
  CLDFSpec_cls (demo_env pip_ok) demo_spec_wordlist ≠ Some my_wordlist.
Proof.
  assert (H : CLDFSpec_init (demo_env pip_ok)
                (Some (ModuleClass {| cls_name := "Wordlist"; cls_ident := 2 |}))
                None None None demo_fs
              = (Return demo_spec_wordlist, demo_fs)).
  { generalize demo_fs. intros fs. vm_compute. reflexivity. }
  assert (H' : CLDFSpec_init (demo_env pip_ok) (Some (ModuleClass my_wordlist))
                 None None None demo_fs
               = (Return demo_spec_wordlist, demo_fs)).
  { generalize demo_fs. intros fs. vm_compute. reflexivity. }
  assert (Hnd : NoDup (map id (get_modules (demo_env pip_ok)))).
  { apply (bool_decide_unpack _). vm_compute. exact I. }
  assert (Hin : {| id := "Wordlist";
                   cls := {| cls_name := "Wordlist"; cls_ident := 2 |} |}
                ∈ get_modules (demo_env pip_ok)).
  { cbn. apply list_elem_of_further, list_elem_of_here. }
  split; [exact H|]. split; [exact H'|]. split; [exact Hnd|].
  split; [exact (proj1 (CLDFSpec_cls_round_trip (demo_env pip_ok) _ _ _ _ _ _ _ H'))|].
  split.
  - apply (proj2 (proj2 (CLDFSpec_cls_round_trip (demo_env pip_ok) _ _ _ _ _ _ _ H))
             Hnd _ Hin eq_refl). reflexivity.
  - intros Heq.
    apply (proj2 (proj2 (CLDFSpec_cls_round_trip (demo_env pip_ok) _ _ _ _ _ _ _ H'))
             Hnd _ Hin eq_refl) in Heq. discriminate.
Defined.

Lemma CLDFSpec_metadata_fname_given_witness :
  str_nonempty "cldf-metadata.json" = true ∧
  CLDFSpec_init (demo_env pip_ok) (Some (ModuleName "Wordlist")) None
    (Some "cldf-metadata.json") None demo_fs
  = (Return {| module := "Wordlist";
               default_metadata_path := default_metadata_path demo_spec_wordlist;
               metadata_fname := "cldf-metadata.json";
               data_fnames := [] |}, demo_fs) ∧
  CLDFSpec_init (demo_env pip_ok) (Some (ModuleName "Wordlist")) None None None demo_fs
  = (Return {| module := "Wordlist";
               default_metadata_path := default_metadata_path demo_spec_wordlist;
               metadata_fname := Path_name (default_metadata_path demo_spec_wordlist);
               data_fnames := [] |}, demo_fs).
Proof.
  assert (H : CLDFSpec_init (demo_env pip_ok) (Some (ModuleName "Wordlist")) None
                (Some "cldf-metadata.json") None demo_fs
              = (Return {| module := "Wordlist";
                           default_metadata_path := default_metadata_path demo_spec_wordlist;
                           metadata_fname := "cldf-metadata.json";
                           data_fnames := [] |}, demo_fs)).
  { generalize demo_fs. intros fs. vm_compute. reflexivity. }
  split; [reflexivity|]. split; [exact H|].
  exact (proj2 (CLDFSpec_metadata_fname_given (demo_env pip_ok) _ _
                  "cldf-metadata.json" _ _ _ _ eq_refl H)).
Defined.

Lemma CLDFWriter_init_copies_template_witness :
  resolves_to (demo_env pip_ok) None demo_fs (cldf_spec demo_writer) ∧
  CLDFWriter_init (demo_env pip_ok) (PathStr "out") None (Some demo_args) None demo_fs
  = (Return demo_writer,
     (CLDFWriter_init (demo_env pip_ok) (PathStr "out") None (Some demo_args) None
        demo_fs).2) ∧
  ∃ c dst,
    fs_stat demo_fs
      (Path_of_str (Path_str (default_metadata_path (cldf_spec demo_writer))))
    = Some (File c) ∧
    fs_stat (CLDFWriter_init (demo_env pip_ok) (PathStr "out") None (Some demo_args) None
               demo_fs).2 (Path_of_str dst)
    = Some (File c).
Proof.
  assert (Hres : resolves_to (demo_env pip_ok) None demo_fs (cldf_spec demo_writer)).
  { unfold resolves_to. generalize demo_fs. intros fs. vm_compute. reflexivity. }
  assert (H : CLDFWriter_init (demo_env pip_ok) (PathStr "out") None (Some demo_args)
                None demo_fs
              = (Return demo_writer,
                 (CLDFWriter_init (demo_env pip_ok) (PathStr "out") None (Some demo_args)
                    None demo_fs).2)).
  { rewrite <- demo_writer_constructed. apply surjective_pairing. }
  split; [exact Hres|]. split; [exact H|].
  destruct (CLDFWriter_init_copies_template (demo_env pip_ok) _ _ _ _ _ _ _ _ Hres H)
    as (c & dst & cl & Hsrc & Hdst & _).
  exists c, dst. split; [exact Hsrc|exact Hdst].
Defined.

Lemma CLDFWriter_init_missing_template_witness :
  resolves_to (demo_env pip_ok) (Some demo_spec_missing) demo_fs demo_spec_missing ∧
  Path_exists demo_fs (pathlib_Path (PathStr "out")) = false ∧
  is_dir demo_fs (Path_parent (pathlib_Path (PathStr "out"))) = true ∧
  fs_stat demo_fs (Path_of_str (Path_str (default_metadata_path demo_spec_missing)))
  = None ∧
  Path_of_str (Path_str (default_metadata_path demo_spec_missing))
  ≠ pathlib_Path (PathStr "out") ∧
  CLDFWriter_init (demo_env pip_ok) (PathStr "out") (Some demo_spec_missing) None None
    demo_fs
  = (Raise {| exc := FileNotFoundError;
              exc_msg := Path_str (Path_of_str
                                     (Path_str (default_metadata_path demo_spec_missing))) |},
     <[pathlib_Path (PathStr "out") := Dir]> demo_fs).
Proof.
  assert (Hex : Path_exists demo_fs (pathlib_Path (PathStr "out")) = false)
    by (vm_compute; reflexivity).
  assert (Hpar : is_dir demo_fs (Path_parent (pathlib_Path (PathStr "out"))) = true)
    by (vm_compute; reflexivity).
  assert (Hsrc : fs_stat demo_fs
                   (Path_of_str (Path_str (default_metadata_path demo_spec_missing)))
                 = None) by (vm_compute; reflexivity).
  assert (Hne : Path_of_str (Path_str (default_metadata_path demo_spec_missing))
                ≠ pathlib_Path (PathStr "out")).
  { apply (bool_decide_unpack _). vm_compute. exact I. }
  split; [reflexivity|]. split; [exact Hex|]. split; [exact Hpar|].
  split; [exact Hsrc|]. split; [exact Hne|].
  exact (CLDFWriter_init_missing_template (demo_env pip_ok) (PathStr "out")
           (Some demo_spec_missing) None None demo_fs demo_spec_missing
           eq_refl Hex Hpar Hsrc Hne).
Defined.

Lemma CLDFWriter_init_frame_witness :
  resolves_to (demo_env pip_ok) None demo_fs (cldf_spec demo_writer) ∧
  (CLDFWriter_init (demo_env pip_ok) (PathStr "out") None None None demo_fs).2
    !! Path_of_str "/site-packages/pycldf/modules/Generic-metadata.json"
  = demo_fs !! Path_of_str "/site-packages/pycldf/modules/Generic-metadata.json".
Proof.
  assert (Hres : resolves_to (demo_env pip_ok) None demo_fs (cldf_spec demo_writer)).
  { unfold resolves_to. generalize demo_fs. intros fs. vm_compute. reflexivity. }
  split; [exact Hres|].
  apply (CLDFWriter_init_frame (demo_env pip_ok) (PathStr "out") None None None
           demo_fs _ (cldf_spec demo_writer) _ _ Hres (surjective_pairing _));
    apply (bool_decide_unpack _); vm_compute; exact I.
Defined.

Lemma write_complete_witness :
  str_split_ws (sys_version (demo_env pip_ok))
  = "3.7.3" :: ["(default,"; "Apr"; "3"; "2019,"; "19:16:38)"; "[GCC"; "8.0.1]"] ∧
  is_dir demo_out_fs (dir demo_writer_values) = true ∧
  is_dir demo_out_fs (requirements_txt demo_writer_values) = false ∧
  pip_freeze (demo_env pip_ok) = Exited 0 "attrs==19.1.0" ∧
  Forall (λ cf, cf.1 ∈ tables (cldf demo_writer_values))
    (data_fnames (cldf_spec demo_writer_values)) ∧
  ∃ d,
    calls d
    = calls (cldf demo_writer_values) ++ calls_before_freeze demo_writer_values ++
      AddProvenance "wasGeneratedBy" [python_entry "3.7.3"; packages_entry]
      :: [SetUrl "ValueTable" "values.csv"] ∧
    (CLDFWriter_write (demo_env pip_ok) [("ValueTable", [[("ID", "1")]])]
       {| self := demo_writer_values; fs := demo_out_fs |}).1
    = match (cldf_write (demo_env pip_ok) d [("ValueTable", [[("ID", "1")]])]
               (<[requirements_txt demo_writer_values := File "attrs==19.1.0"]>
                  demo_out_fs)).2 with
      | None => Return ()
      | Some e => Raise e
      end.
Proof.
  assert (Hv : str_split_ws (sys_version (demo_env pip_ok))
               = "3.7.3" :: ["(default,"; "Apr"; "3"; "2019,"; "19:16:38)"; "[GCC"; "8.0.1]"])
    by (vm_compute; reflexivity).
  assert (Hdir : is_dir demo_out_fs (dir demo_writer_values) = true)
    by (vm_compute; reflexivity).
  assert (Hreq : is_dir demo_out_fs (requirements_txt demo_writer_values) = false)
    by (vm_compute; reflexivity).
  assert (Hall : Forall (λ cf, cf.1 ∈ tables (cldf demo_writer_values))
                   (data_fnames (cldf_spec demo_writer_values))).
  { repeat constructor. }
  split; [exact Hv|]. split; [exact Hdir|]. split; [exact Hreq|].
  split; [reflexivity|]. split; [exact Hall|].
  destruct (write_complete (demo_env pip_ok) [("ValueTable", [[("ID", "1")]])]
              demo_writer_values demo_out_fs _ _ 0%Z _ Hv Hdir Hreq eq_refl Hall)
    as (d & Hd & Hrun).
  exists d. split; [by rewrite Hd|]. by rewrite Hrun.
Defined.

Lemma write_unknown_table_witness :
  str_split_ws (sys_version (demo_env pip_ok))
  = "3.7.3" :: ["(default,"; "Apr"; "3"; "2019,"; "19:16:38)"; "[GCC"; "8.0.1]"] ∧
  is_dir demo_out_fs (dir demo_writer_lang) = true ∧
  is_dir demo_out_fs (requirements_txt demo_writer_lang) = false ∧
  pip_freeze (demo_env pip_ok) = Exited 0 "attrs==19.1.0" ∧
  data_fnames (cldf_spec demo_writer_lang) = [] ++ ("LanguageTable", "languages.csv") :: [] ∧
  Forall (λ cf : string * string, cf.1 ∈ tables (cldf demo_writer_lang)) [] ∧
  ("LanguageTable" ∉ tables (cldf demo_writer_lang)) ∧
  (CLDFWriter_write (demo_env pip_ok) [] {| self := demo_writer_lang; fs := demo_out_fs |}).1
  = Raise {| exc := KeyError; exc_msg := "LanguageTable" |}.
Proof.
  assert (Hv : str_split_ws (sys_version (demo_env pip_ok))
               = "3.7.3" :: ["(default,"; "Apr"; "3"; "2019,"; "19:16:38)"; "[GCC"; "8.0.1]"])
    by (vm_compute; reflexivity).
  assert (Hdir : is_dir demo_out_fs (dir demo_writer_lang) = true)
    by (vm_compute; reflexivity).
  assert (Hreq : is_dir demo_out_fs (requirements_txt demo_writer_lang) = false)
    by (vm_compute; reflexivity).
  assert (Hall : Forall (λ cf : string * string, cf.1 ∈ tables (cldf demo_writer_lang)) [])
    by constructor.
  assert (Hcomp : "LanguageTable" ∉ tables (cldf demo_writer_lang)).
  { apply (bool_decide_unpack _). vm_compute. exact I. }
  split; [exact Hv|]. split; [exact Hdir|]. split; [exact Hreq|].
  split; [reflexivity|]. split; [reflexivity|]. split; [exact Hall|].
  split; [exact Hcomp|].
  by rewrite (write_unknown_table (demo_env pip_ok) [] demo_writer_lang demo_out_fs
                _ _ 0%Z _ [] "LanguageTable" "languages.csv" [] Hv Hdir Hreq eq_refl
                eq_refl Hall Hcomp).
Defined.

Lemma write_missing_outdir_witness :
  str_split_ws (sys_version (demo_env pip_ok))
  = "3.7.3" :: ["(default,"; "Apr"; "3"; "2019,"; "19:16:38)"; "[GCC"; "8.0.1]"] ∧
  fs_stat demo_fs (dir demo_writer) = None ∧
  fs_stat demo_fs (requirements_txt demo_writer) = None ∧
  CLDFWriter_write (demo_env pip_ok) [] {| self := demo_writer; fs := demo_fs |}
  = (Raise {| exc := FileNotFoundError;
              exc_msg := Path_str (requirements_txt demo_writer) |},
     state_before_freeze demo_writer demo_fs).
Proof.
  assert (Hv : str_split_ws (sys_version (demo_env pip_ok))
               = "3.7.3" :: ["(default,"; "Apr"; "3"; "2019,"; "19:16:38)"; "[GCC"; "8.0.1]"])
    by (vm_compute; reflexivity).
  assert (Hdir : fs_stat demo_fs (dir demo_writer) = None)
    by (vm_compute; reflexivity).
  assert (Hreq : fs_stat demo_fs (requirements_txt demo_writer) = None)
    by (vm_compute; reflexivity).
  split; [exact Hv|]. split; [exact Hdir|]. split; [exact Hreq|].
  exact (write_missing_outdir (demo_env pip_ok) [] demo_writer demo_fs _ _ Hv Hdir Hreq).
Defined.

Lemma scope_rows_written_witness :
  ("self" ∉ (objects (self (append_rows_body demo_state).2)).*1) ∧
  str_split_ws (sys_version (demo_env pip_ok))
  = "3.7.3" :: ["(default,"; "Apr"; "3"; "2019,"; "19:16:38)"; "[GCC"; "8.0.1]"] ∧
  objects (self (append_rows_body demo_state).2)
  = [("ValueTable", [[("ID", "1")]; [("ID", "2")]])] ∧
  ∃ before,
    calls (cldf (self (with_CLDFWriter (demo_env pip_ok) append_rows_body demo_state).2))
    = calls (cldf (self (append_rows_body demo_state).2)) ++ before
      ++ [CallWrite (objects (self (append_rows_body demo_state).2))].
Proof.
  assert (Hself : "self" ∉ (objects (self (append_rows_body demo_state).2)).*1).
  { apply (bool_decide_unpack _). vm_compute. exact I. }
  assert (Hv : str_split_ws (sys_version (demo_env pip_ok))
               = "3.7.3" :: ["(default,"; "Apr"; "3"; "2019,"; "19:16:38)"; "[GCC"; "8.0.1]"])
    by (vm_compute; reflexivity).
  split; [exact Hself|]. split; [exact Hv|]. split; [reflexivity|].
  destruct (scope_rows_written (demo_env pip_ok) append_rows_body demo_state
              _ _ 0%Z "attrs==19.1.0" Hself Hv) as (before & Hcalls & _).
  - vm_compute. reflexivity.
  - vm_compute. reflexivity.
  - reflexivity.
  - repeat constructor.
  - exists before. exact Hcalls.
Defined.
